(** * Game.py: the story assistant's prompt pipeline and task runner

    A shallow embedding of [src/Game.py]: the complex-strategy [fill] of
    [OUTLINE_WRITE_NODES] / [CONTENT_WRITE_NODES], the two actions
    [WriteStoryStruct] and [WriteContent] (with its retry loop), and the
    [StoryAssistant] role ([_think], [_handle_directory], [_act], [_react]).

    Python [str] values are sequences of Unicode code points, so a string is
    a list of code points here; [len], indexing and [find] count code points
    exactly as Python does.  Effects are explicit: the text generator is an
    oracle whose state is threaded through every call, and the role is a
    record passed from step to step.  Exceptions are a constructor of
    [result]. *)

From Stdlib Require Import ZArith NArith List String Ascii Bool Lia.
Import ListNotations.

Local Open Scope Z_scope.

Set Warnings "-register-all".

(** ** Python text *)

Module Text.

Definition char := N.
Definition str := list char.

(** Decoding of a UTF-8 byte sequence into code points; only used to write
    the literals of the source file in this file. *)
Fixpoint utf8_decode (bs : list N) : str :=
  match bs with
  | [] => []
  | b0 :: r0 =>
      if (b0 <? 128)%N then b0 :: utf8_decode r0
      else if (b0 <? 224)%N then
        match r0 with
        | b1 :: r1 =>
            (N.land b0 31 * 64 + N.land b1 63)%N :: utf8_decode r1
        | [] => []
        end
      else if (b0 <? 240)%N then
        match r0 with
        | b1 :: b2 :: r2 =>
            (N.land b0 15 * 4096 + N.land b1 63 * 64 + N.land b2 63)%N
              :: utf8_decode r2
        | _ => []
        end
      else
        match r0 with
        | b1 :: b2 :: b3 :: r3 =>
            (N.land b0 7 * 262144 + N.land b1 63 * 4096
             + N.land b2 63 * 64 + N.land b3 63)%N :: utf8_decode r3
        | _ => []
        end
  end.

(** [py "..."] is the Python string literal with that text. *)
Definition py (s : string) : str :=
  utf8_decode (map N_of_ascii (list_ascii_of_string s)).

Definition nl : str := [10%N].
Definition dq : str := [34%N].
Definition lbrace : char := 123%N.
Definition rbrace : char := 125%N.

(** [len(s)] *)
Definition len (s : str) : Z := Z.of_nat (List.length s).

(** [a == b] on strings *)
Fixpoint str_eqb (a b : str) : bool :=
  match a, b with
  | [], [] => true
  | c :: a', d :: b' => N.eqb c d && str_eqb a' b'
  | _, _ => false
  end.

(** [s.startswith(sub)] *)
Fixpoint startswith (s sub : str) : bool :=
  match sub, s with
  | [], _ => true
  | _ :: _, [] => false
  | c :: sub', d :: s' => N.eqb c d && startswith s' sub'
  end.

(** [s.find(sub)]: the lowest index at which [sub] occurs in [s], or [-1]. *)
Fixpoint find_from (i : Z) (s sub : str) : Z :=
  if startswith s sub then i
  else match s with
       | [] => -1
       | _ :: s' => find_from (i + 1) s' sub
       end.

Definition find (s sub : str) : Z := find_from 0 s sub.

(** [s[i]] for an integer [i]: negative indices count from the end, an index
    out of range raises (here [None]); the result is a one-character
    string. *)
Definition getitem (s : str) (i : Z) : option str :=
  let j := if i <? 0 then len s + i else i in
  if (j <? 0) || (len s <=? j) then None
  else match nth_error s (Z.to_nat j) with
       | Some c => Some [c]
       | None => None
       end.

(** [s[i:]] for a negative [i] (the slice of the last [-i] characters);
    not used by the program, kept to state what a slice would give. *)
Definition slice_from (s : str) (i : Z) : str :=
  let j := if i <? 0 then Z.max 0 (len s + i) else Z.min i (len s) in
  skipn (Z.to_nat j) s.

End Text.

Import Text.

(** ** Results and exceptions *)

Inductive exn : Type :=
| IndexError
| KeyError
| ValueError
| AttributeError
| UnboundLocalError
| MalformedOutlineError.

Inductive result (A : Type) : Type :=
| Ok (a : A)
| Raise (e : exn)
| OutOfFuel.

Arguments Ok {A} a.
Arguments Raise {A} e.
Arguments OutOfFuel {A}.

Definition bind {A B : Type} (m : result A) (k : A -> result B) : result B :=
  match m with
  | Ok a => k a
  | Raise e => Raise e
  | OutOfFuel => OutOfFuel
  end.

Notation "x <- m ;; k" := (bind m (fun x => k))
  (at level 61, m at next level, right associativity).
Notation "' p <- m ;; k" := (bind m (fun x => match x with p => k end))
  (at level 61, p pattern, m at next level, right associativity).

(** ** [str.format] with keyword arguments

    The fragment the program uses: [{name}] is replaced by the keyword
    argument [name], [{{] and [}}] are literal braces.  A name that is not
    among the keyword arguments raises [KeyError]; a lone brace raises
    [ValueError].  Keyword arguments that the template never names are
    ignored, as in Python. *)

Fixpoint kwargs_get (kwargs : list (str * str)) (name : str) : result str :=
  match kwargs with
  | [] => Raise KeyError
  | (k, v) :: rest => if str_eqb k name then Ok v else kwargs_get rest name
  end.

Fixpoint format_go (t : str) (field : option str) (kwargs : list (str * str))
  : result str :=
  match t with
  | [] => match field with
          | None => Ok []
          | Some _ => Raise ValueError
          end
  | c :: t' =>
      match field with
      | Some name =>
          if N.eqb c rbrace then
            v <- kwargs_get kwargs name ;;
            rest <- format_go t' None kwargs ;;
            Ok (v ++ rest)
          else format_go t' (Some (name ++ [c])) kwargs
      | None =>
          if N.eqb c lbrace then
            match t' with
            | c' :: t'' =>
                if N.eqb c' lbrace then
                  rest <- format_go t'' None kwargs ;; Ok (lbrace :: rest)
                else format_go t' (Some []) kwargs
            | [] => Raise ValueError
            end
          else if N.eqb c rbrace then
            match t' with
            | c' :: t'' =>
                if N.eqb c' rbrace then
                  rest <- format_go t'' None kwargs ;; Ok (rbrace :: rest)
                else Raise ValueError
            | [] => Raise ValueError
            end
          else
            rest <- format_go t' None kwargs ;; Ok (c :: rest)
      end
  end.

Definition format (template : str) (kwargs : list (str * str)) : result str :=
  format_go template None kwargs.

(** ** [str.encode] *)

(** [s.encode('utf-8')]: one to four bytes per code point.  A surrogate
    (D800 to DFFF) cannot be encoded and raises [UnicodeEncodeError], which
    is a [ValueError]; a number from 110000 on is no code point of a Python
    string and is refused in the same way. *)
Definition utf8_encode_char (c : char) : result (list N) :=
  if (c <? 128)%N then Ok [c]
  else if (c <? 2048)%N then Ok [(192 + c / 64)%N; (128 + c mod 64)%N]
  else if (c <? 65536)%N then
    if (55296 <=? c)%N && (c <? 57344)%N then Raise ValueError
    else Ok [(224 + c / 4096)%N; (128 + (c / 64) mod 64)%N;
             (128 + c mod 64)%N]
  else if (c <? 1114112)%N then
    Ok [(240 + c / 262144)%N; (128 + (c / 4096) mod 64)%N;
        (128 + (c / 64) mod 64)%N; (128 + c mod 64)%N]
  else Raise ValueError.

Fixpoint utf8_encode (s : str) : result (list N) :=
  match s with
  | [] => Ok []
  | c :: s' =>
      b <- utf8_encode_char c ;;
      bs <- utf8_encode s' ;;
      Ok (b ++ bs)
  end.

(** ** The constants of the module *)

Definition STRUCT_WRITE_INSTRUCTION : str := Eval vm_compute in
  nl
  ++ py "您现在是短篇小说领域经验丰富的小说作家, 我们需要您根据给定的小说题材生成故事的基本结构。" ++ nl
  ++ py "按照以下内容输出符合给定题材的小说基本结构：" ++ nl
  ++ py "标题:" ++ dq ++ py "小说的标题" ++ dq ++ nl
  ++ py "设置:" ++ dq ++ py "小说的情景设置细节，包括时间段、地点和所有相关背景信息" ++ dq ++ nl
  ++ py "主角:" ++ dq ++ py "小说主角的名字、年龄、职业，以及他们的性格和动机、简要的描述" ++ dq ++ nl
  ++ py "反派角色:" ++ dq ++ py "小说反派角色的名字、年龄、职业，以及他们的性格和动机、简要的描述" ++ dq ++ nl
  ++ py "冲突:" ++ dq ++ py "小说故事的主要冲突，包括主角面临的问题和涉及的利害关系" ++ dq ++ nl
  ++ py "对话:" ++ dq ++ py "以对话的形式描述情节，揭示人物，以此提供一些提示给读者" ++ dq ++ nl
  ++ py "主题:" ++ dq ++ py "小说中心主题，并说明如何在整个情节、角色和背景中展开" ++ dq ++ nl
  ++ py "基调:" ++ dq ++ py "整体故事的基调，以及保持背景和人物的一致性和适当性的说明" ++ dq ++ nl
  ++ py "节奏:" ++ dq ++ py "调节故事节奏以建立和释放紧张气氛，推进情节，创造戏剧效果的说明" ++ dq ++ nl
  ++ py "其它:" ++ dq ++ py "任何额外的细节或对故事的要求，如特定的字数或题材限制" ++ dq ++ nl.

Definition DIRECTORY_WRITE_INSTRUCTION : str := Eval vm_compute in
  nl
  ++ py "您现在是短篇小说领域经验丰富的小说作家。我们需要您根据context的内容创作出小说的目录和章节内容概况。" ++ nl
  ++ py "请按照以下要求提供该小说的具体目录和目录中的故事概况：" ++ nl
  ++ py "1. 输出必须严格符合指定语言。" ++ nl
  ++ py "2. 回答必须严格按照字典格式，如: {" ++ dq ++ py "title" ++ dq ++ py ": " ++ dq ++ py "xxx" ++ dq ++ py ", " ++ dq ++ py "directory" ++ dq ++ py ": {" ++ dq ++ py "第一章：章节标题" ++ dq ++ py ": " ++ dq ++ py "故事概况" ++ dq ++ py ", " ++ dq ++ py "第二章：章节标题" ++ dq ++ py ": " ++ dq ++ py "故事概况" ++ dq ++ py "}} 。" ++ nl
  ++ py "3. 目录应尽可能引人注目和充分，包括一级目录和本章故事概况。" ++ nl
  ++ py "4. 不要有额外的空格或换行符。" ++ nl.

Definition DIRECTORY_PROMPT : str := Eval vm_compute in
  nl
  ++ py "        小说的题材是{topic}。请严格使用{language}语言，并按照instruction中的说明内容输出内容" ++ nl
  ++ py "        ".

Definition CONTENT_PROMPT : str := Eval vm_compute in
  nl
  ++ py "        您现在是短篇小说领域经验丰富的小说作家。请以引人入胜的风格，深入细致地按照故事概况" ++ dq ++ py "{content}" ++ dq ++ py "写出故事内容，注意与上一章故事内容的衔接。" ++ nl
  ++ py "        上一章故事内容为{topic}。" ++ nl
  ++ py "        ".

Definition STORY_WRITE_INSTRUCTION : str := Eval vm_compute in
  py "您现在是短篇小说领域经验丰富的小说作家。我们需要您创作出小说详细内容。".

(** The two phrases the retry loop of [WriteContent.run] looks for. *)
Definition MARKER_FULFILL : str := Eval vm_compute in py "无法满足".
Definition MARKER_COMPLETE : str := Eval vm_compute in py "无法完成".

(** ** Action nodes *)

Inductive ActionNode : Type := mkNode {
  node_key : str;
  node_instruction : str;
  node_example : str;
  node_schema : str;
  node_context : str;
  node_content : str;
  node_children : list (str * ActionNode)
}.

(** [ActionNode(key=..., expected_type=str, instruction=..., example=...)]:
    no schema, no context, no content, no children. *)
Definition ActionNode_init (key instruction example : str) : ActionNode :=
  mkNode key instruction example [] [] [] [].

Definition set_context (context : str) (n : ActionNode) : ActionNode :=
  mkNode (node_key n) (node_instruction n) (node_example n) (node_schema n)
         context (node_content n) (node_children n).

Definition set_content (content : str) (n : ActionNode) : ActionNode :=
  mkNode (node_key n) (node_instruction n) (node_example n) (node_schema n)
         (node_context n) content (node_children n).

Definition set_children (cs : list (str * ActionNode)) (n : ActionNode)
  : ActionNode :=
  mkNode (node_key n) (node_instruction n) (node_example n) (node_schema n)
         (node_context n) (node_content n) cs.

(** [self.children[node.key] = node] on an insertion-ordered dict: an
    existing key keeps its place and gets the new value, a new key goes to
    the end. *)
Fixpoint dict_set {V : Type} (d : list (str * V)) (k : str) (v : V)
  : list (str * V) :=
  match d with
  | [] => [(k, v)]
  | (k', v') :: d' =>
      if str_eqb k' k then (k', v) :: d' else (k', v') :: dict_set d' k v
  end.

(** [d[k]] *)
Fixpoint dict_getitem {V : Type} (d : list (str * V)) (k : str) : result V :=
  match d with
  | [] => Raise KeyError
  | (k', v) :: d' => if str_eqb k' k then Ok v else dict_getitem d' k
  end.

(** [for k in d] visits the keys in insertion order. *)
Definition dict_keys {V : Type} (d : list (str * V)) : list str :=
  map fst d.

Definition add_children (nodes : list ActionNode) (n : ActionNode)
  : ActionNode :=
  set_children
    (fold_left (fun d c => dict_set d (node_key c) c) nodes (node_children n))
    n.

Definition STRUCT_WRITE : ActionNode :=
  ActionNode_init (py "Struct Write") STRUCT_WRITE_INSTRUCTION (py "").

Definition DIRECTORY_WRITE : ActionNode :=
  ActionNode_init (py "Directory Write") DIRECTORY_WRITE_INSTRUCTION (py "").

Definition STORY_WRITE : ActionNode :=
  ActionNode_init (py "Story Write") STORY_WRITE_INSTRUCTION (py "").

(** [OUTLINE_WRITE_NODES()] *)
Definition OUTLINE_WRITE_NODES : ActionNode :=
  add_children [STRUCT_WRITE; DIRECTORY_WRITE]
    (ActionNode_init (py "Outline Nodes") (py "") (py "")).

(** [CONTENT_WRITE_NODES()] *)
Definition CONTENT_WRITE_NODES : ActionNode :=
  add_children [STORY_WRITE]
    (ActionNode_init (py "Content Nodes") (py "") (py "")).

(** ** The text generator

    The generator is outside the module: an oracle with a state of its own,
    asked with an instruction and a context, answering with a text.  Every
    question and its answer is recorded in [calls], oldest first. *)

Class Generator (L : Type) : Type := {
  generate : L -> str -> str -> str * L
}.

Record Call : Type := mkCall {
  call_instruction : str;
  call_context : str;
  call_output : str
}.

Section Pipeline.

Context {L : Type} `{Generator L}.

Record World : Type := mkWorld {
  llm : L;
  calls : list Call
}.

(** Modelled from the spec: [ActionNode.simple_fill] is not in the module.
    Filling a leaf invokes the text generator once with the node's
    instruction and its context, sets the node's content to the raw result
    and returns the node. *)
Definition simple_fill (n : ActionNode) (schema mode : str) (w : World)
  : ActionNode * World :=
  let (out, l') := generate (llm w) (node_instruction n) (node_context n) in
  (set_content out n,
   mkWorld l' (calls w ++ [mkCall (node_instruction n) (node_context n) out])).

(** The loop of the complex strategy (lines 92-96 and 117-121): the children
    in dict order, each filled with the running [child_context], which then
    becomes the content of the child just filled. *)
Fixpoint fill_children (cs : list (str * ActionNode)) (child_context : str)
    (schema mode : str) (w : World)
  : str * list (str * ActionNode) * World :=
  match cs with
  | [] => (child_context, [], w)
  | (k, i) :: cs' =>
      let i := set_context child_context i in
      let (child, w1) := simple_fill i schema mode w in
      let '(ctx, cs'', w2) :=
        fill_children cs' (node_content child) schema mode w1 in
      (ctx, (k, child) :: cs'', w2)
  end.

(** [OUTLINE_WRITE_NODES.fill] and [CONTENT_WRITE_NODES.fill]; the two
    methods have the same body.  When [strgy] is neither ["simple"] nor
    ["complex"] the method falls off its end and returns [None]. *)
Definition fill (self : ActionNode) (context : str)
    (schema mode strgy : str) (w : World) : option ActionNode * World :=
  let self := set_context context self in
  let schema :=
    match node_schema self with [] => schema | _ :: _ => node_schema self end in
  if str_eqb strgy (py "simple") then
    let (n, w1) := simple_fill self schema mode w in (Some n, w1)
  else if str_eqb strgy (py "complex") then
    let '(child_context, cs, w1) :=
      fill_children (node_children self) context schema mode w in
    (Some (set_content child_context (set_children cs self)), w1)
  else (None, w).

(** ** Actions *)

Inductive Action : Type :=
| WriteStoryStruct (language : str) (node : ActionNode)
| WriteContent (language directory content : str) (node : ActionNode).

(** [WriteStoryStruct(language=...)] *)
Definition WriteStoryStruct_init (language : str) : Action :=
  WriteStoryStruct language OUTLINE_WRITE_NODES.

(** [WriteContent(language=..., directory=..., content=...)] *)
Definition WriteContent_init (language directory content : str) : Action :=
  WriteContent language directory content CONTENT_WRITE_NODES.

(** The parsed outline: [titles.get("title")] and
    [titles.get("directory")], the latter an insertion-ordered dict from
    chapter heading to chapter summary. *)
Record Titles : Type := mkTitles {
  titles_title : str;
  titles_directory : list (str * str)
}.

(** [OutputParser.extract_struct(resp, dict)] is outside the module; it is a
    parameter of the development. *)
Variable extract_struct : str -> result Titles.

(** [WriteStoryStruct.run] *)
Definition WriteStoryStruct_run (language : str) (node : ActionNode)
    (topic : str) (w : World) : result (Titles * World) :=
  prompt <- format DIRECTORY_PROMPT
              [(py "topic", topic); (py "language", language)] ;;
  let (resp_node, w1) :=
    fill node prompt (py "raw") (py "auto") (py "complex") w in
  match resp_node with
  | None => Raise AttributeError
  | Some resp_node =>
      let resp := node_content resp_node in
      titles <- extract_struct resp ;;
      Ok (titles, w1)
  end.

(** The prompt of [WriteContent.run] (lines 170-171). *)
Definition CONTENT_PROMPT_format (topic language content : str) : result str :=
  format CONTENT_PROMPT
    [(py "topic", topic); (py "language", language); (py "content", content)].

(** The test of line 176: [True] means [break]. *)
Definition accepts (resp : str) : bool :=
  (find resp MARKER_FULFILL =? -1) || (find resp MARKER_COMPLETE =? -1).

(** The [while n < 5] loop of [WriteContent.run] (lines 169-177), entered
    with the current [n], the last [resp] if any, and the node. *)
Fixpoint WriteContent_loop (fuel : nat) (language content topic : str)
    (n : Z) (resp : option str) (node : ActionNode) (w : World)
  : result (Z * option str * ActionNode * World) :=
  match fuel with
  | O => OutOfFuel
  | S fuel' =>
      if n <? 5 then
        prompt <- CONTENT_PROMPT_format topic language content ;;
        let (resp_node, w1) :=
          fill node prompt (py "raw") (py "auto") (py "complex") w in
        match resp_node with
        | None => Raise AttributeError
        | Some resp_node =>
            let resp := node_content resp_node in
            let n := n + 1 in
            if accepts resp then Ok (n, Some resp, resp_node, w1)
            else WriteContent_loop fuel' language content topic
                   n (Some resp) resp_node w1
        end
      else Ok (n, resp, node, w)
  end.

(** The f-string of line 178: the heading as a section marker, a blank
    line, the text. *)
Definition with_heading (directory resp : str) : str :=
  py "## " ++ directory ++ nl ++ nl ++ resp.

(** [WriteContent.run]: the loop from [n = 0], then the heading is put in
    front of the accepted text (line 178). *)
Definition WriteContent_run (fuel : nat) (language directory content : str)
    (node : ActionNode) (topic : str) (w : World) : result (str * World) :=
  '(_, resp, _, w1) <-
     WriteContent_loop fuel language content topic 0 None node w ;;
  match resp with
  | None => Raise UnboundLocalError
  | Some resp => Ok (with_heading directory resp, w1)
  end.

(** ** The role *)

(** [Message(content=..., role=...)]; the role is [None] where the module
    leaves it to the framework's default. *)
Record Message : Type := mkMessage {
  msg_content : str;
  msg_role : option str
}.

(** What the role did, oldest first; not a field of the Python object, kept
    to state in which order and with which arguments the actions ran. *)
Inductive Event : Type :=
| EvInitActions (actions : list Action)
| EvRun (todo : Action) (topic : str)
| EvWrite (filename : str) (bytes : list N).

Record StoryAssistant : Type := mkRole {
  topic : str;
  total_content : str;
  language : str;
  main_title : str;
  content_count : Z;
  profile : str;
  actions : list Action;
  states : list Action;
  rc_state : Z;
  rc_todo : option Action;
  rc_memory : list Message;
  history : list Event
}.

Definition set_topic (v : str) (r : StoryAssistant) : StoryAssistant :=
  mkRole v (total_content r) (language r) (main_title r) (content_count r)
    (profile r) (actions r) (states r) (rc_state r) (rc_todo r) (rc_memory r)
    (history r).

Definition set_total_content (v : str) (r : StoryAssistant) : StoryAssistant :=
  mkRole (topic r) v (language r) (main_title r) (content_count r)
    (profile r) (actions r) (states r) (rc_state r) (rc_todo r) (rc_memory r)
    (history r).

Definition set_main_title (v : str) (r : StoryAssistant) : StoryAssistant :=
  mkRole (topic r) (total_content r) (language r) v (content_count r)
    (profile r) (actions r) (states r) (rc_state r) (rc_todo r) (rc_memory r)
    (history r).

Definition set_content_count (v : Z) (r : StoryAssistant) : StoryAssistant :=
  mkRole (topic r) (total_content r) (language r) (main_title r) v
    (profile r) (actions r) (states r) (rc_state r) (rc_todo r) (rc_memory r)
    (history r).

Definition set_actions (v : list Action) (r : StoryAssistant)
  : StoryAssistant :=
  mkRole (topic r) (total_content r) (language r) (main_title r)
    (content_count r) (profile r) v (states r) (rc_state r) (rc_todo r)
    (rc_memory r) (history r).

Definition set_states (v : list Action) (r : StoryAssistant)
  : StoryAssistant :=
  mkRole (topic r) (total_content r) (language r) (main_title r)
    (content_count r) (profile r) (actions r) v (rc_state r) (rc_todo r)
    (rc_memory r) (history r).

Definition set_rc_state (v : Z) (r : StoryAssistant) : StoryAssistant :=
  mkRole (topic r) (total_content r) (language r) (main_title r)
    (content_count r) (profile r) (actions r) (states r) v (rc_todo r)
    (rc_memory r) (history r).

Definition set_rc_todo (v : option Action) (r : StoryAssistant)
  : StoryAssistant :=
  mkRole (topic r) (total_content r) (language r) (main_title r)
    (content_count r) (profile r) (actions r) (states r) (rc_state r) v
    (rc_memory r) (history r).

Definition set_rc_memory (v : list Message) (r : StoryAssistant)
  : StoryAssistant :=
  mkRole (topic r) (total_content r) (language r) (main_title r)
    (content_count r) (profile r) (actions r) (states r) (rc_state r)
    (rc_todo r) v (history r).

Definition record (e : Event) (r : StoryAssistant) : StoryAssistant :=
  mkRole (topic r) (total_content r) (language r) (main_title r)
    (content_count r) (profile r) (actions r) (states r) (rc_state r)
    (rc_todo r) (rc_memory r) (history r ++ [e]).

(** Modelled from the spec: [Memory.get] and [Memory.add] are not in the
    module.  The memory is an ordered, append-only sequence of entries whose
    most recent entry is its last element; [get(k)] is the list of the last
    [k] entries. *)
Definition memory_get (k : nat) (storage : list Message) : list Message :=
  match k with
  | O => storage
  | S _ => skipn (List.length storage - k)%nat storage
  end.

Definition memory_add (m : Message) (storage : list Message) : list Message :=
  storage ++ [m].

(** [lst[0]] *)
Definition list_first {A : Type} (l : list A) : result A :=
  match l with
  | [] => Raise IndexError
  | x :: _ => Ok x
  end.

(** Modelled from the spec: [Role._set_state] is not in the module.
    Selecting the task at index [state] makes it the current task; a
    negative index clears the selection; an index past the end of the
    action list raises. *)
Definition _set_state (state : Z) (self : StoryAssistant)
  : result StoryAssistant :=
  let self := set_rc_state state self in
  if state >=? 0 then
    match nth_error (actions self) (Z.to_nat state) with
    | Some a => Ok (set_rc_todo (Some a) self)
    | None => Raise IndexError
    end
  else Ok (set_rc_todo None self).

(** [StoryAssistant._init_actions] *)
Definition _init_actions (acts : list Action) (self : StoryAssistant)
  : StoryAssistant :=
  record (EvInitActions acts) (set_actions acts self).

(** [StoryAssistant(language=...)]: the class attributes, then
    [_init_actions([WriteStoryStruct(language=language)])].  The constructor
    hands neither its [name] nor its [profile] argument on to the base
    class, so [profile] is the one of the framework, [prof] here.  Nothing
    is selected ([rc.state] is [-1], [rc.todo] is [None]); [memory] is what
    the framework has put there before [_react] is entered. *)
Definition StoryAssistant_init (lang prof : str) (memory : list Message)
  : StoryAssistant :=
  _init_actions [WriteStoryStruct_init lang]
    (mkRole (py "") (py "") lang (py "") 0 prof [] [] (-1) None memory []).

(** [StoryAssistant._think] *)
Definition _think (self : StoryAssistant) : result StoryAssistant :=
  let self := set_states (actions self) self in
  match rc_todo self with
  | None => _set_state 0 self
  | Some _ =>
      if rc_state self + 1 <? Z.of_nat (List.length (states self)) then
        _set_state (rc_state self + 1) self
      else Ok (set_rc_todo None self)
  end.

(** The loop of [_handle_directory] (lines 221-225). *)
Fixpoint directory_loop (lang : str) (total_dir : list (str * str))
    (keys : list str) (directory : str) (acts : list Action)
  : result (str * list Action) :=
  match keys with
  | [] => Ok (directory, acts)
  | first_dir :: keys' =>
      let directory := directory ++ py "- " ++ first_dir ++ nl in
      dir_content <- dict_getitem total_dir first_dir ;;
      directory_loop lang total_dir keys' directory
        (acts ++ [WriteContent_init lang first_dir dir_content])
  end.

(** [StoryAssistant._handle_directory] *)
Definition _handle_directory (titles : Titles) (self : StoryAssistant)
  : result (Message * StoryAssistant) :=
  let self := set_main_title (titles_title titles) self in
  let directory := main_title self ++ nl in
  let self :=
    set_total_content (total_content self ++ py "# " ++ main_title self) self in
  let total_dir := titles_directory titles in
  '(directory, acts) <-
     directory_loop (language self) total_dir (dict_keys total_dir)
       directory [] ;;
  let self := _init_actions acts self in
  let self := set_rc_todo None self in
  Ok (mkMessage directory None, self).

(** [todo.run(topic=...)] in the chapter branch of [_act]; selecting nothing
    leaves [None], which has no [run]. *)
Definition todo_run (fuel : nat) (todo : option Action) (topic : str)
    (w : World) : result (str * World) :=
  match todo with
  | Some (WriteContent lang dir content node) =>
      WriteContent_run fuel lang dir content node topic w
  | Some (WriteStoryStruct _ _) => Raise AttributeError
  | None => Raise AttributeError
  end.

(** The argument of [todo.run] in the chapter branch of [_act] (lines
    249-255), [msg] being the most recent entry of the memory and
    [content_count] already incremented. *)
Definition previous_context (self : StoryAssistant) (msg : Message)
  : result str :=
  if content_count self >? 1 then
    if len (msg_content msg) >? 100 then
      match getitem (msg_content msg) (-100) with
      | Some c => Ok c
      | None => Raise IndexError
      end
    else Ok (msg_content msg)
  else Ok (main_title self).

(** [self.total_content] after lines 257-259. *)
Definition assemble (total_content resp : str) : str :=
  (if negb (str_eqb total_content (py "")) then total_content ++ nl ++ nl ++ nl
   else total_content) ++ resp.

(** [StoryAssistant._act] *)
Definition _act (fuel : nat) (self : StoryAssistant) (w : World)
  : result (Message * StoryAssistant * World) :=
  let todo := rc_todo self in
  match todo with
  | Some (WriteStoryStruct lang node as t) =>
      msg <- list_first (memory_get 1 (rc_memory self)) ;;
      let self := set_topic (msg_content msg) self in
      let self := record (EvRun t (topic self)) self in
      '(resp, w1) <- WriteStoryStruct_run lang node (topic self) w ;;
      '(m, self) <- _handle_directory resp self ;;
      Ok (m, self, w1)
  | _ =>
      let self := set_content_count (content_count self + 1) self in
      msg <- list_first (memory_get 1 (rc_memory self)) ;;
      arg <- previous_context self msg ;;
      let self :=
        match todo with
        | Some t => record (EvRun t arg) self
        | None => self
        end in
      '(resp, w1) <- todo_run fuel todo arg w ;;
      let self := set_total_content (assemble (total_content self) resp) self in
      let msg_last := mkMessage resp (Some (profile self)) in
      let self := set_rc_memory (memory_add msg_last (rc_memory self)) self in
      Ok (msg_last, self, w1)
  end.

(** The [while True] loop of [_react]; [msg] is [None] as long as the
    variable is unbound. *)
Fixpoint _react_loop (fuel : nat) (msg : option Message)
    (self : StoryAssistant) (w : World)
  : result (option Message * StoryAssistant * World) :=
  match fuel with
  | O => OutOfFuel
  | S fuel' =>
      self <- _think self ;;
      match rc_todo self with
      | None => Ok (msg, self, w)
      | Some _ =>
          '(m, self, w1) <- _act fuel' self w ;;
          _react_loop fuel' (Some m) self w1
      end
  end.

(** [StoryAssistant._write_to_file] (lines 275-278; the end of [_react],
    lines 270-272, is the same three lines): the file name and the bytes
    handed to [File.write].  The bytes are computed before [File.write] is
    called, so a document that cannot be encoded raises and nothing is
    written.  The directory is named after the time of the call and is left
    out. *)
Definition _write_to_file (self : StoryAssistant) : result (str * list N) :=
  bytes <- utf8_encode (total_content self) ;;
  Ok (main_title self ++ py ".md", bytes).

(** [StoryAssistant._react]: the loop, then the document is encoded and
    written under the name [{main_title}.md] (lines 270-272), and the last
    message is returned. *)
Definition _react (fuel : nat) (self : StoryAssistant) (w : World)
  : result (Message * StoryAssistant * World) :=
  '(msg, self, w1) <- _react_loop fuel None self w ;;
  '(name, bytes) <- _write_to_file self ;;
  let self := record (EvWrite name bytes) self in
  match msg with
  | None => Raise UnboundLocalError
  | Some m => Ok (m, self, w1)
  end.

End Pipeline.

Arguments World L : clear implicits.

(** ** A scripted generator and a fixed outline, for concrete runs *)

Module Demo.

(** The generator answers with the next text of its script, whatever it is
    asked, and with the empty text once the script is used up. *)
#[export] Instance Scripted : Generator (list str) := {
  generate l _ _ :=
    match l with
    | [] => ([], [])
    | r :: l' => (r, l')
    end
}.

Definition outline : Titles :=
  mkTitles (py "T") [(py "c1", py "s1"); (py "c2", py "s2")].

(** A parser that knows one outline text. *)
Definition parser (resp : str) : result Titles :=
  if str_eqb resp (py "B") then Ok outline else Raise MalformedOutlineError.

(** The memory as the framework leaves it before [_react]: the request. *)
Definition request : list Message := [mkMessage (py "game") None].

(** The profile the framework gives the role. *)
Definition profile0 : str := py "assistant".

Definition role0 : StoryAssistant :=
  StoryAssistant_init (py "Chinese") profile0 request.

Definition world0 : World (list str) :=
  mkWorld [py "A"; py "B"; py "one"; py "two"] [].

(** The world once the outline task has run on [world0]. *)
Definition world1 : World (list str) := Eval vm_compute in
  match
    WriteStoryStruct_run parser (py "Chinese") OUTLINE_WRITE_NODES (py "game")
      world0
  with
  | Ok (_, w) => w
  | _ => world0
  end.

(** An answer that carries the first of the two phrases only. *)
Definition refusal : str := Eval vm_compute in py "抱歉，我无法满足这个请求。".

(** A text of 150 characters: the code points 1000 to 1149. *)
Definition long_text : str := map N.of_nat (seq 1000 150).

End Demo.

Import Demo.

(** ** Vocabulary of the statements *)

(** [sub in s] *)
Definition occurs (sub s : str) : Prop :=
  exists pre post, s = pre ++ sub ++ post.

(** A dict has no key twice. *)
Fixpoint unique_keys {V : Type} (d : list (str * V)) : bool :=
  match d with
  | [] => true
  | (k, _) :: d' => negb (existsb (str_eqb k) (map fst d')) && unique_keys d'
  end.

(** One chapter task per entry of the directory, in its order. *)
Definition chapter_tasks (lang : str) (d : list (str * str)) : list Action :=
  map (fun kv => WriteContent_init lang (fst kv) (snd kv)) d.

(** The directory summary that [_handle_directory] returns. *)
Definition directory_text (d : list (str * str)) : str :=
  List.concat (map (fun kv => py "- " ++ fst kv ++ nl) d).

(** What lines 250-253 hand on of an entry: the entry itself when it has at
    most 100 characters, else the one character that stands 100 places
    before its end. *)
Definition tail_context (c : str) : str :=
  if len c >? 100 then
    match nth_error c (List.length c - 100) with
    | Some x => [x]
    | None => []
    end
  else c.

(** The formatted output of each chapter, from the headings of the
    directory and the texts the retry loops kept. *)
Definition chapter_outputs (d : list (str * str)) (bodies : list str)
  : list str :=
  map (fun p => with_heading (fst (fst p)) (snd p)) (combine d bodies).

(** The argument of each chapter's [run]: [first] for the first chapter,
    then what [tail_context] hands on of the output just before. *)
Definition chapter_topics (first : str) (outs : list str) : list str :=
  removelast (first :: map tail_context outs).

Definition run_events (tasks : list Action) (topics : list str)
  : list Event :=
  map (fun p => EvRun (fst p) (snd p)) (combine tasks topics).

Definition entries (role : str) (outs : list str) : list Message :=
  map (fun o => mkMessage o (Some role)) outs.

(** Two children that differ at most in the context and the content a fill
    has left in them. *)
Definition same_shape (a b : str * ActionNode) : Prop :=
  fst a = fst b
  /\ node_key (snd a) = node_key (snd b)
  /\ node_instruction (snd a) = node_instruction (snd b)
  /\ node_example (snd a) = node_example (snd b)
  /\ node_schema (snd a) = node_schema (snd b)
  /\ node_children (snd a) = node_children (snd b).

(** The prompt of a chapter, written out. *)
Definition content_prompt (topic content : str) : str :=
  nl ++ py "        您现在是短篇小说领域经验丰富的小说作家。请以引人入胜的风格，深入细致地按照故事概况"
  ++ dq ++ content ++ dq
  ++ py "写出故事内容，注意与上一章故事内容的衔接。" ++ nl
  ++ py "        上一章故事内容为" ++ topic ++ py "。" ++ nl
  ++ py "        ".

(** The text a retry loop keeps of the answers it got: the last one. *)
Definition kept (outs : list str) : str := last outs [].

(** The answers one retry loop can have got: at least one and at most
    five, every answer but the last sent back by the test of line 176, the
    last one let through unless it is the fifth. *)
Definition retry_answers (outs : list str) : Prop :=
  outs <> []
  /\ (List.length outs <= 5)%nat
  /\ Forall (fun o => accepts o = false) (removelast outs)
  /\ (accepts (kept outs) = true \/ List.length outs = 5%nat).

(** The questions of the chapter phase: for each entry of the directory,
    one question per answer of its retry loop, each with the story
    instruction and the prompt made of the chapter's summary and of the
    context handed on from the chapter before ([first] for the first). *)
Fixpoint chapter_calls (d : list (str * str)) (first : str)
    (answers : list (list str)) : list Call :=
  match d, answers with
  | (k, v) :: d', outs :: answers' =>
      map (mkCall STORY_WRITE_INSTRUCTION (content_prompt first v)) outs
      ++ chapter_calls d' (tail_context (with_heading k (kept outs))) answers'
  | _, _ => []
  end.

(** A code point that [encode] accepts: below 110000 and no surrogate. *)
Definition encodable (c : char) : Prop :=
  (c < 1114112)%N /\ ~ (55296 <= c < 57344)%N.

(** * Properties *)

(** ** Text *)

Lemma str_eqb_refl (a : str) : str_eqb a a = true.
Proof.
  induction a as [|c a IH]; simpl; [reflexivity|].
  now rewrite N.eqb_refl, IH.
Qed.

Lemma str_eqb_eq (a b : str) : str_eqb a b = true <-> a = b.
Proof.
  split.
  - revert b. induction a as [|c a IH]; intros [|d b]; simpl; try discriminate.
    + reflexivity.
    + intros E. apply andb_true_iff in E. destruct E as [E1 E2].
      apply N.eqb_eq in E1. apply IH in E2. congruence.
  - intros ->. apply str_eqb_refl.
Qed.

Lemma last_cons_default {A : Type} (l : list A) (a d : A) :
  last (a :: l) d = last l a.
Proof.
  revert a d. induction l as [|b l IH]; intros a d; [reflexivity|].
  change (last (a :: b :: l) d) with (last (b :: l) d).
  now rewrite !IH.
Qed.

Lemma last_In {A : Type} (l : list A) (d : A) : l <> [] -> In (last l d) l.
Proof.
  induction l as [|a l IH]; intros NE; [contradiction|].
  destruct l as [|b l]; [now left|].
  right. apply IH. discriminate.
Qed.

(** [s.startswith(sub)] holds exactly when [s] is [sub] followed by
    something. *)
Lemma startswith_spec (s sub : str) :
  startswith s sub = true <-> exists post, s = sub ++ post.
Proof.
  revert s. induction sub as [|c sub IH]; intros [|d s]; simpl.
  - split; [intros _; now exists [] | reflexivity].
  - split; [intros _; now exists (d :: s) | reflexivity].
  - split; [discriminate | intros [post E]; discriminate].
  - rewrite andb_true_iff, N.eqb_eq, IH. split.
    + intros [-> [post ->]]. now exists post.
    + intros [post E]. injection E as -> ->.
      split; [reflexivity | now exists post].
Qed.

Lemma find_from_eq (i : Z) (s sub : str) :
  find_from i s sub =
  if startswith s sub then i
  else match s with
       | [] => -1
       | _ :: s' => find_from (i + 1) s' sub
       end.
Proof. destruct s; reflexivity. Qed.

Lemma find_from_absent (s sub : str) (i : Z) :
  find_from i s sub = -1 -> 0 <= i -> ~ occurs sub s.
Proof.
  revert i. induction s as [|d s IH]; intros i; rewrite find_from_eq.
  - destruct (startswith [] sub) eqn:E; [intros; lia|].
    intros _ _ [pre [post Eq]].
    destruct pre; [|discriminate]. simpl in Eq.
    assert (startswith [] sub = true) by (apply startswith_spec; now exists post).
    congruence.
  - destruct (startswith (d :: s) sub) eqn:E; [intros; lia|].
    intros F Hi [pre [post Eq]].
    destruct pre as [|p pre].
    + simpl in Eq.
      assert (startswith (d :: s) sub = true)
        by (apply startswith_spec; now exists post).
      congruence.
    + injection Eq as -> ->.
      apply (IH (i + 1)); [assumption | lia | now exists pre, post].
Qed.

Lemma find_from_present (s sub : str) (i : Z) :
  find_from i s sub <> -1 -> occurs sub s.
Proof.
  revert i. induction s as [|d s IH]; intros i; rewrite find_from_eq.
  - destruct (startswith [] sub) eqn:E; [|congruence].
    intros _. apply startswith_spec in E. destruct E as [post E].
    now exists [], post.
  - destruct (startswith (d :: s) sub) eqn:E.
    + intros _. apply startswith_spec in E. destruct E as [post E].
      now exists [], post.
    + intros F. apply IH in F. destruct F as [pre [post ->]].
      now exists (d :: pre), post.
Qed.

(** [s.find(sub) == -1] exactly when [sub] does not occur in [s]. *)
Lemma find_absent_iff (s sub : str) : find s sub = -1 <-> ~ occurs sub s.
Proof.
  unfold find. split.
  - intros F. apply (find_from_absent s sub 0); [assumption | lia].
  - intros N. destruct (Z.eq_dec (find_from 0 s sub) (-1)) as [E|E];
      [assumption|]. exfalso. apply N. now apply find_from_present in E.
Qed.

(** The test of line 176 lets a text through as soon as one of the two
    phrases is missing; it asks for another attempt only when both occur. *)
Lemma accepts_false_iff (resp : str) :
  accepts resp = false <->
  occurs MARKER_FULFILL resp /\ occurs MARKER_COMPLETE resp.
Proof.
  unfold accepts. rewrite orb_false_iff, !Z.eqb_neq. split.
  - intros [A B]. split; eapply find_from_present; eassumption.
  - intros [A B]. split; intros F; apply find_absent_iff in F; contradiction.
Qed.

(** ** [str.format] on the two prompts *)

Lemma CONTENT_PROMPT_format_eq (topic language content : str) :
  CONTENT_PROMPT_format topic language content
  = Ok (nl ++ py "        您现在是短篇小说领域经验丰富的小说作家。请以引人入胜的风格，深入细致地按照故事概况"
        ++ dq ++ content ++ dq
        ++ py "写出故事内容，注意与上一章故事内容的衔接。" ++ nl
        ++ py "        上一章故事内容为" ++ topic ++ py "。" ++ nl
        ++ py "        ").
Proof. vm_compute. reflexivity. Qed.

Lemma DIRECTORY_PROMPT_format_eq (topic language : str) :
  format DIRECTORY_PROMPT [(py "topic", topic); (py "language", language)]
  = Ok (nl ++ py "        小说的题材是" ++ topic ++ py "。请严格使用"
        ++ language ++ py "语言，并按照instruction中的说明内容输出内容" ++ nl
        ++ py "        ").
Proof. vm_compute. reflexivity. Qed.

(** C6, as the code has it: the prompt of a chapter is the same whatever the
    language of the task.  [language] is handed to [format], but the
    template of [WriteContent.run] has no [{language}] field (the template
    of [WriteStoryStruct.run] has one), so the prompt cannot depend on
    it. *)
Theorem C6_prompt_ignores_language :
  forall topic content language1 language2 : str,
    CONTENT_PROMPT_format topic language1 content
    = CONTENT_PROMPT_format topic language2 content.
Proof.
  intros. now rewrite !CONTENT_PROMPT_format_eq.
Qed.

(** The sibling prompt does depend on the language. *)
Example DIRECTORY_PROMPT_uses_language :
  format DIRECTORY_PROMPT [(py "topic", py "t"); (py "language", py "Chinese")]
  <> format DIRECTORY_PROMPT [(py "topic", py "t"); (py "language", py "English")].
Proof. vm_compute. discriminate. Qed.

(** ** The complex-strategy fill *)

Section FillProperties.

Context {L : Type} {G : Generator L}.

Lemma simple_fill_calls (n : ActionNode) (schema mode : str) (w : World L) :
  exists out,
    calls (snd (simple_fill n schema mode w))
    = calls w ++ [mkCall (node_instruction n) (node_context n) out]
    /\ fst (simple_fill n schema mode w) = set_content out n.
Proof.
  unfold simple_fill.
  destruct (generate (llm w) (node_instruction n) (node_context n)) as [out l'].
  now exists out.
Qed.

(** The calls made by the loop over the children: one per child, in dict
    order, with the child's instruction; the contexts are the incoming
    context followed by the outputs but the last; the value left in
    [child_context] is the last output (the incoming context when there is
    no child); each child keeps its key and has its output as content. *)
Lemma fill_children_spec (cs : list (str * ActionNode)) :
  forall (ctx schema mode : str) (w : World L),
  exists cl,
    calls (snd (fill_children cs ctx schema mode w)) = calls w ++ cl
    /\ map call_instruction cl = map (fun kv => node_instruction (snd kv)) cs
    /\ map call_context cl = removelast (ctx :: map call_output cl)
    /\ fst (fst (fill_children cs ctx schema mode w))
       = last (map call_output cl) ctx
    /\ map fst (snd (fst (fill_children cs ctx schema mode w))) = map fst cs
    /\ map (fun kv => node_content (snd kv))
         (snd (fst (fill_children cs ctx schema mode w)))
       = map call_output cl.
Proof.
  induction cs as [|[k i] cs IH]; intros ctx schema mode w.
  - exists []. simpl. rewrite app_nil_r. repeat split; reflexivity.
  - simpl.
    destruct (simple_fill_calls (set_context ctx i) schema mode w)
      as [out [Hc Hn]].
    destruct (simple_fill (set_context ctx i) schema mode w) as [child w1].
    simpl in Hc, Hn. subst child.
    specialize (IH out schema mode w1).
    change (node_content (set_content out (set_context ctx i))) with out.
    destruct (fill_children cs out schema mode w1) as [[c' cs'] w2].
    simpl in IH |- *.
    destruct IH as [cl [H1 [H2 [H3 [H4 [H5 H6]]]]]].
    exists (mkCall (node_instruction i) ctx out :: cl).
    rewrite H1, Hc. simpl. rewrite <- app_assoc. simpl.
    repeat split.
    + now rewrite H2.
    + rewrite H3. reflexivity.
    + rewrite H4. symmetry. apply last_cons_default.
    + now rewrite H5.
    + now rewrite H6.
Qed.

(** C3, as the code has it: a node without children is not rejected by the
    complex strategy.  The loop body never runs, the generator is not
    asked, and the node comes back with the incoming context as its
    content. *)
Theorem C3_empty_children_passthrough :
  forall (self : ActionNode) (ctx schema mode : str) (w : World L),
    node_children self = [] ->
    exists n,
      fill self ctx schema mode (py "complex") w = (Some n, w)
      /\ node_content n = ctx
      /\ node_children n = [].
Proof.
  intros self ctx schema mode w E.
  unfold fill.
  replace (str_eqb (py "complex") (py "simple")) with false by reflexivity.
  replace (str_eqb (py "complex") (py "complex")) with true by reflexivity.
  change (node_children (set_context ctx self)) with (node_children self).
  rewrite E. simpl. eexists. repeat split.
Qed.

(** C4: the complex strategy on a node with children asks the generator once
    per child, in insertion order; the first child is asked with the
    task-level context, every later child with the output of the child just
    before it, and the content of the parent is the output of the last
    child. *)
Theorem C4_pipeline_threading :
  forall (self : ActionNode) (ctx schema mode : str) (w : World L),
    node_children self <> [] ->
    exists n w' cl,
      fill self ctx schema mode (py "complex") w = (Some n, w')
      /\ calls w' = calls w ++ cl
      /\ map call_instruction cl
         = map (fun kv => node_instruction (snd kv)) (node_children self)
      /\ map call_context cl = ctx :: removelast (map call_output cl)
      /\ node_content n = last (map call_output cl) ctx
      /\ map fst (node_children n) = map fst (node_children self)
      /\ map (fun kv => node_content (snd kv)) (node_children n)
         = map call_output cl.
Proof.
  intros self ctx schema mode w NE.
  unfold fill.
  replace (str_eqb (py "complex") (py "simple")) with false by reflexivity.
  replace (str_eqb (py "complex") (py "complex")) with true by reflexivity.
  change (node_children (set_context ctx self)) with (node_children self).
  set (sch := match node_schema (set_context ctx self) with
              | [] => schema
              | _ :: _ => node_schema (set_context ctx self)
              end).
  destruct (fill_children_spec (node_children self) ctx sch mode w)
    as [cl [H1 [H2 [H3 [H4 [H5 H6]]]]]].
  destruct (fill_children (node_children self) ctx sch mode w)
    as [[c cs] w'].
  simpl in H1, H4, H5, H6.
  exists (set_content c (set_children cs (set_context ctx self))), w', cl.
  simpl. repeat split; try assumption.
  rewrite H3. destruct cl as [|c0 cl]; [|reflexivity].
  destruct (node_children self); [contradiction | discriminate].
Qed.

(** The complex strategy always returns the node, after one call per
    child. *)
Lemma fill_complex_spec (self : ActionNode) (ctx schema mode : str)
    (w : World L) :
  exists n w' cl,
    fill self ctx schema mode (py "complex") w = (Some n, w')
    /\ calls w' = calls w ++ cl
    /\ List.length cl = List.length (node_children self)
    /\ List.length (node_children n) = List.length (node_children self)
    /\ node_content n = last (map call_output cl) ctx.
Proof.
  unfold fill.
  replace (str_eqb (py "complex") (py "simple")) with false by reflexivity.
  replace (str_eqb (py "complex") (py "complex")) with true by reflexivity.
  change (node_children (set_context ctx self)) with (node_children self).
  set (sch := match node_schema (set_context ctx self) with
              | [] => schema
              | _ :: _ => node_schema (set_context ctx self)
              end).
  destruct (fill_children_spec (node_children self) ctx sch mode w)
    as [cl [H1 [H2 [H3 [H4 [H5 H6]]]]]].
  destruct (fill_children (node_children self) ctx sch mode w)
    as [[c cs] w'].
  simpl in H1, H4, H5, H6.
  exists (set_content c (set_children cs (set_context ctx self))), w', cl.
  simpl. repeat split; try assumption.
  - rewrite <- (length_map call_instruction), H2. apply length_map.
  - rewrite <- (length_map fst), H5. apply length_map.
Qed.

(** ** The retry loop of [WriteContent.run] *)

Lemma WriteContent_loop_S (fuel : nat) (language content topic : str)
    (n : Z) (resp : option str) (node : ActionNode) (w : World L) :
  WriteContent_loop (S fuel) language content topic n resp node w =
  if n <? 5 then
    prompt <- CONTENT_PROMPT_format topic language content ;;
    let (resp_node, w1) :=
      fill node prompt (py "raw") (py "auto") (py "complex") w in
    match resp_node with
    | None => Raise AttributeError
    | Some resp_node =>
        if accepts (node_content resp_node)
        then Ok (n + 1, Some (node_content resp_node), resp_node, w1)
        else WriteContent_loop fuel language content topic (n + 1)
               (Some (node_content resp_node)) resp_node w1
    end
  else Ok (n, resp, node, w).
Proof. reflexivity. Qed.

(** Entered with [n < 5] and enough fuel, the loop returns: it has filled
    the node [n' - n] times, [n'] is at most 5, and it stopped either
    because the test of line 176 let the last text through or because [n']
    reached 5. *)
Lemma WriteContent_loop_spec (language content topic : str) :
  forall (fuel : nat) (n : Z) (resp : option str) (node : ActionNode)
         (w : World L),
    0 <= n < 5 ->
    (Z.to_nat (5 - n) < fuel)%nat ->
    exists n' r node' w' cl,
      WriteContent_loop fuel language content topic n resp node w
      = Ok (n', Some r, node', w')
      /\ n < n' <= 5
      /\ calls w' = calls w ++ cl
      /\ List.length cl
         = (Z.to_nat (n' - n) * List.length (node_children node))%nat
      /\ (accepts r = true \/ n' = 5)
      /\ r = node_content node'
      /\ (node_children node <> [] -> In r (map call_output cl)).
Proof.
  induction fuel as [|fuel IH]; intros n resp node w Hn Hf; [lia|].
  rewrite WriteContent_loop_S.
  replace (n <? 5) with true by (symmetry; apply Z.ltb_lt; lia).
  rewrite CONTENT_PROMPT_format_eq. cbn [bind].
  match goal with
  | |- context [fill node ?p _ _ _ w] =>
      destruct (fill_complex_spec node p (py "raw") (py "auto") w)
        as [rn [w1 [cl1 [Hfill [Hc1 [Hl1 [Hk1 Hlast]]]]]]]; rewrite Hfill
  end.
  assert (Hin1 : node_children node <> [] ->
                 In (node_content rn) (map call_output cl1)).
  { intros NE. rewrite Hlast. apply last_In.
    destruct cl1; [|discriminate].
    destruct (node_children node); [contradiction | discriminate]. }
  destruct (accepts (node_content rn)) eqn:Acc.
  - exists (n + 1), (node_content rn), rn, w1, cl1.
    repeat split; try assumption; try lia. now left.
  - destruct (Z.eq_dec (n + 1) 5) as [E5|N5].
    + destruct fuel as [|fuel]; [lia|]. rewrite WriteContent_loop_S.
      replace (n + 1 <? 5) with false by (symmetry; apply Z.ltb_ge; lia).
      exists (n + 1), (node_content rn), rn, w1, cl1.
      repeat split; try assumption; lia.
    + destruct (IH (n + 1) (Some (node_content rn)) rn w1)
        as [n' [r [node' [w' [cl [Hloop [Hn' [Hc [Hl [Hacc [Hr Hin]]]]]]]]]]];
        [lia | lia |].
      exists n', r, node', w', (cl1 ++ cl).
      rewrite Hloop. repeat split; try assumption; try lia.
      * rewrite Hc, Hc1. now rewrite app_assoc.
      * rewrite length_app, Hl, Hl1, Hk1.
        replace (Z.to_nat (n' - n)) with (S (Z.to_nat (n' - (n + 1)))) by lia.
        simpl. lia.
      * intros NE. rewrite map_app. apply in_or_app. right. apply Hin.
        destruct (node_children rn); [|discriminate].
        destruct (node_children node); [contradiction | discriminate].
Qed.

(** C8: a chapter's [run] always returns, and it has filled the node at
    least once and at most 5 times, whatever the generator answered; every
    fill asks the generator once per child of the node. *)
Theorem C8_retry_bound :
  forall (fuel : nat) (language directory content topic : str)
         (node : ActionNode) (w : World L),
    (6 <= fuel)%nat ->
    exists n resp node' w' cl,
      WriteContent_loop fuel language content topic 0 None node w
      = Ok (n, Some resp, node', w')
      /\ WriteContent_run fuel language directory content node topic w
         = Ok (with_heading directory resp, w')
      /\ 1 <= n <= 5
      /\ calls w' = calls w ++ cl
      /\ List.length cl = (Z.to_nat n * List.length (node_children node))%nat.
Proof.
  intros fuel language directory content topic node w Hf.
  destruct (WriteContent_loop_spec language content topic fuel 0 None node w)
    as [n [r [node' [w' [cl [Hloop [Hn [Hc [Hl _]]]]]]]]]; [lia | simpl; lia |].
  exists n, r, node', w', cl. unfold WriteContent_run. rewrite Hloop.
  rewrite Z.sub_0_r in Hl.
  repeat split; try assumption; lia.
Qed.

End FillProperties.

(** The two-leaf pipeline of the outline with a generator that answers "A"
    and then "B": the second leaf is asked with "A", the content is "B". *)
Lemma C4_pipeline_threading_witness :
  node_children OUTLINE_WRITE_NODES <> []
  /\ exists n w' cl,
       fill OUTLINE_WRITE_NODES (py "ctx") (py "raw") (py "auto")
         (py "complex") (mkWorld [py "A"; py "B"] [])
       = (Some n, w')
       /\ calls w' = [] ++ cl
       /\ map call_context cl = [py "ctx"; py "A"]
       /\ node_content n = py "B".
Proof.
  split; [discriminate|].
  destruct (C4_pipeline_threading OUTLINE_WRITE_NODES (py "ctx") (py "raw")
              (py "auto") (mkWorld [py "A"; py "B"] []))
    as [n [w' [cl [H1 [H2 [H3 [H4 [H5 [H6 H7]]]]]]]]]; [discriminate|].
  exists n, w', cl. split; [exact H1|]. split; [exact H2|].
  vm_compute in H1. injection H1 as <- <-. simpl in H2. subst cl.
  split; reflexivity.
Defined.

Lemma C3_empty_children_passthrough_witness :
  exists n,
    fill (ActionNode_init (py "Empty") (py "") (py "")) (py "ctx") (py "raw")
      (py "auto") (py "complex") (mkWorld [py "A"] [])
    = (Some n, mkWorld [py "A"] [])
    /\ node_content n = py "ctx"
    /\ node_children n = [].
Proof.
  apply (C3_empty_children_passthrough
           (ActionNode_init (py "Empty") (py "") (py "")) (py "ctx")
           (py "raw") (py "auto") (mkWorld [py "A"] [])).
  reflexivity.
Defined.

(** C3, the claim as stated fails: the complex strategy on a node without
    children returns the node, its content being the context it was given,
    and the generator has not been asked. *)
Lemma C3_counterexample :
  let node := ActionNode_init (py "Empty") (py "") (py "") in
  let w := mkWorld [py "A"] [] in
  fill node (py "ctx") (py "raw") (py "auto") (py "complex") w
  = (Some (set_content (py "ctx") (set_context (py "ctx") node)), w).
Proof. reflexivity. Qed.

Lemma C8_retry_bound_witness :
  exists n resp node' w' cl,
    WriteContent_loop 6 (py "Chinese") (py "s") (py "t") 0 None
      CONTENT_WRITE_NODES (mkWorld [py "one"] [])
    = Ok (n, Some resp, node', w')
    /\ WriteContent_run 6 (py "Chinese") (py "h") (py "s")
         CONTENT_WRITE_NODES (py "t") (mkWorld [py "one"] [])
       = Ok (with_heading (py "h") resp, w')
    /\ 1 <= n <= 5
    /\ calls w' = [] ++ cl
    /\ List.length cl
       = (Z.to_nat n * List.length (node_children CONTENT_WRITE_NODES))%nat.
Proof.
  apply (C8_retry_bound 6 (py "Chinese") (py "h") (py "s") (py "t")
           CONTENT_WRITE_NODES (mkWorld [py "one"] [])).
  lia.
Defined.

(** When every answer carries both phrases the node is filled 5 times and
    the fifth answer is kept. *)
Example retry_exhausted :
  let both := MARKER_FULFILL ++ MARKER_COMPLETE in
  exists node' w',
    WriteContent_loop 6 (py "Chinese") (py "s") (py "t") 0 None
      CONTENT_WRITE_NODES
      (mkWorld [both; both; both; both; both ++ py "5"; py "6"] [])
    = Ok (5, Some (both ++ py "5"), node', w')
    /\ llm w' = [py "6"]
    /\ List.length (calls w') = 5%nat.
Proof. vm_compute. do 2 eexists. repeat split. Qed.

(** C1, at the failing input: the first answer carries one of the two
    phrases, and [run] keeps it after a single fill; the second answer of
    the generator is never asked for. *)
Theorem C1_single_marker_accepted :
  occurs MARKER_FULFILL Demo.refusal
  /\ exists w',
       WriteContent_run 6 (py "Chinese") (py "h") (py "s")
         CONTENT_WRITE_NODES (py "t")
         (mkWorld [Demo.refusal; py "fine"] [])
       = Ok (with_heading (py "h") Demo.refusal, w')
       /\ llm w' = [py "fine"]
       /\ map call_output (calls w') = [Demo.refusal].
Proof.
  split.
  - apply (find_from_present Demo.refusal MARKER_FULFILL 0).
    vm_compute. discriminate.
  - vm_compute. eexists. repeat split.
Qed.

(** ** The role *)

Lemma memory_get_last (mem : list Message) (m : Message) :
  memory_get 1 (mem ++ [m]) = [m].
Proof.
  unfold memory_get. rewrite length_app. simpl.
  replace (List.length mem + 1 - 1)%nat with (List.length mem + 0)%nat by lia.
  rewrite skipn_app, Nat.add_0_r, skipn_all.
  replace (List.length mem - List.length mem)%nat with 0%nat by lia.
  reflexivity.
Qed.

(** Indexing at [-100] never raises on a string of more than 100
    characters: lines 250-253 always give [tail_context]. *)
Lemma getitem_minus_100 (c : str) :
  len c > 100 ->
  exists x, nth_error c (List.length c - 100) = Some x
            /\ getitem c (-100) = Some [x].
Proof.
  intros Hl. unfold getitem, len in *.
  change (-100 <? 0) with true. cbv iota.
  replace (Z.of_nat (List.length c) + -100 <? 0) with false
    by (symmetry; apply Z.ltb_ge; lia).
  replace (Z.of_nat (List.length c) <=? Z.of_nat (List.length c) + -100)
    with false by (symmetry; apply Z.leb_gt; lia).
  simpl orb. cbv iota.
  replace (Z.to_nat (Z.of_nat (List.length c) + -100))
    with (List.length c - 100)%nat by lia.
  destruct (nth_error c (List.length c - 100)) as [x|] eqn:E.
  - now exists x.
  - apply nth_error_None in E. lia.
Qed.

Lemma previous_context_spec (self : StoryAssistant) (msg : Message) :
  previous_context self msg
  = Ok (if content_count self >? 1 then tail_context (msg_content msg)
        else main_title self).
Proof.
  unfold previous_context, tail_context.
  destruct (content_count self >? 1); [|reflexivity].
  destruct (len (msg_content msg) >? 100) eqn:E; [|reflexivity].
  destruct (getitem_minus_100 (msg_content msg)) as [x [H1 H2]].
  - apply Z.gtb_lt in E. lia.
  - now rewrite H1, H2.
Qed.

Lemma tail_context_long (c : str) :
  len c > 100 -> List.length (tail_context c) = 1%nat.
Proof.
  intros Hl. unfold tail_context.
  replace (len c >? 100) with true by (symmetry; apply Z.gtb_lt; lia).
  destruct (getitem_minus_100 c Hl) as [x [H1 _]]. now rewrite H1.
Qed.

Lemma tail_context_short (c : str) : len c <= 100 -> tail_context c = c.
Proof.
  intros Hl. unfold tail_context.
  rewrite Z.gtb_ltb.
  now replace (100 <? len c) with false by (symmetry; apply Z.ltb_ge; lia).
Qed.

(** A text of 98 characters is handed on whole; behind the heading "c1"
    the entry has 105 characters and one character is handed on. *)
Example heading_counts_towards_length :
  let body := firstn 98 Demo.long_text in
  len body = 98
  /\ tail_context body = body
  /\ len (with_heading (py "c1") body) = 105
  /\ tail_context (with_heading (py "c1") body) = nl.
Proof. vm_compute. repeat split. Qed.

Lemma existsb_middle_false {A : Type} (f : A -> bool) (l1 l2 : list A) (x : A) :
  existsb f (l1 ++ x :: l2) = false -> f x = false.
Proof.
  rewrite existsb_app. simpl. intros E.
  apply orb_false_iff in E. destruct E as [_ E].
  now apply orb_false_iff in E.
Qed.

Lemma dict_getitem_unique {V : Type} (pre post : list (str * V)) (k : str)
    (v : V) :
  unique_keys (pre ++ (k, v) :: post) = true ->
  dict_getitem (pre ++ (k, v) :: post) k = Ok v.
Proof.
  induction pre as [|[k' v'] pre IH]; simpl; intros U.
  - now rewrite str_eqb_refl.
  - apply andb_true_iff in U. destruct U as [U1 U2].
    apply negb_true_iff in U1. rewrite map_app in U1. simpl in U1.
    apply existsb_middle_false in U1. rewrite U1. now apply IH.
Qed.

(** The loop of [_handle_directory] makes one chapter task per entry, in
    the order of the directory, and never raises on a dict. *)
Lemma directory_loop_spec (lang : str) (post : list (str * str)) :
  forall (pre : list (str * str)) (text : str) (acts : list Action),
    unique_keys (pre ++ post) = true ->
    directory_loop lang (pre ++ post) (dict_keys post) text acts
    = Ok (text ++ directory_text post, acts ++ chapter_tasks lang post).
Proof.
  induction post as [|[k v] post IH]; intros pre text acts U; simpl.
  - now rewrite !app_nil_r.
  - rewrite (dict_getitem_unique pre post k v U). cbn [bind].
    replace (pre ++ (k, v) :: post) with ((pre ++ [(k, v)]) ++ post)
      by (now rewrite <- app_assoc).
    rewrite IH by (now rewrite <- app_assoc).
    unfold directory_text, chapter_tasks. simpl.
    f_equal. f_equal; rewrite <- app_assoc; reflexivity.
Qed.

Section RunProperties.

Context {L : Type} {G : Generator L}.
Variable extract_struct : str -> result Titles.

Lemma WriteContent_run_spec (fuel : nat) (language directory content topic : str)
    (node : ActionNode) (w : World L) :
  (6 <= fuel)%nat ->
  node_children node <> [] ->
  exists body w' cl,
    WriteContent_run fuel language directory content node topic w
    = Ok (with_heading directory body, w')
    /\ calls w' = calls w ++ cl
    /\ In body (map call_output cl).
Proof.
  intros Hf NE.
  destruct (WriteContent_loop_spec language content topic fuel 0 None node w)
    as [n [r [node' [w' [cl [Hloop [_ [Hc [_ [_ [_ Hin]]]]]]]]]]];
    [lia | simpl; lia |].
  exists r, w', cl. unfold WriteContent_run. rewrite Hloop.
  repeat split; [assumption | now apply Hin].
Qed.

(** One chapter step of [_act]: the task runs with the main title when it
    is the first chapter and with [tail_context] of the most recent entry
    otherwise; its formatted output goes to the document and is appended to
    the memory; nothing else of the role changes. *)
Lemma act_chapter_spec (fuel : nat) (self : StoryAssistant) (w : World L)
    (lang dir content : str) (mem : list Message) (msg : Message) :
  rc_todo self = Some (WriteContent_init lang dir content) ->
  rc_memory self = mem ++ [msg] ->
  (6 <= fuel)%nat ->
  exists body w' cl,
    _act extract_struct fuel self w
    = Ok (mkMessage (with_heading dir body) (Some (profile self)),
          set_rc_memory
            (rc_memory self
             ++ [mkMessage (with_heading dir body) (Some (profile self))])
            (set_total_content
               (assemble (total_content self) (with_heading dir body))
               (record
                  (EvRun (WriteContent_init lang dir content)
                     (if content_count self + 1 >? 1
                      then tail_context (msg_content msg)
                      else main_title self))
                  (set_content_count (content_count self + 1) self))),
          w')
    /\ calls w' = calls w ++ cl
    /\ In body (map call_output cl).
Proof.
  intros Htodo Hmem Hf.
  set (topic := if content_count self + 1 >? 1
                then tail_context (msg_content msg) else main_title self).
  destruct (WriteContent_run_spec fuel lang dir content topic
              CONTENT_WRITE_NODES w Hf) as [body [w' [cl [Hrun [Hc Hin]]]]];
    [discriminate|].
  exists body, w', cl. split; [|now split].
  unfold _act. rewrite Htodo. unfold WriteContent_init.
  cbv beta iota zeta.
  change (rc_memory (set_content_count (content_count self + 1) self))
    with (rc_memory self).
  rewrite Hmem, memory_get_last. cbn [list_first bind].
  rewrite previous_context_spec. cbn [bind].
  change (content_count (set_content_count (content_count self + 1) self))
    with (content_count self + 1).
  change (main_title (set_content_count (content_count self + 1) self))
    with (main_title self).
  fold topic. unfold todo_run.
  rewrite Hrun. cbn [bind]. unfold memory_add.
  rewrite <- Hmem. reflexivity.
Qed.

(** The outline step of [_act]: the task runs on the content of the most
    recent entry; the title and the chapter tasks come from its result; the
    selection is cleared; the memory is left as it was. *)
Lemma act_outline_spec (fuel : nat) (self : StoryAssistant) (w w1 : World L)
    (lang : str) (node : ActionNode) (mem : list Message) (msg : Message)
    (titles : Titles) :
  rc_todo self = Some (WriteStoryStruct lang node) ->
  rc_memory self = mem ++ [msg] ->
  WriteStoryStruct_run extract_struct lang node (msg_content msg) w
  = Ok (titles, w1) ->
  unique_keys (titles_directory titles) = true ->
  _act extract_struct fuel self w
  = Ok (mkMessage
          (titles_title titles ++ nl ++ directory_text (titles_directory titles))
          None,
        set_rc_todo None
          (_init_actions
             (chapter_tasks (language self) (titles_directory titles))
             (set_total_content
                (total_content self ++ py "# " ++ titles_title titles)
                (set_main_title (titles_title titles)
                   (record (EvRun (WriteStoryStruct lang node) (msg_content msg))
                      (set_topic (msg_content msg) self))))),
        w1).
Proof.
  intros Htodo Hmem Hrun U.
  unfold _act. rewrite Htodo. cbv beta iota zeta.
  rewrite Hmem, memory_get_last. cbn [list_first bind].
  change (topic (record (EvRun (WriteStoryStruct lang node)
                           (topic (set_topic (msg_content msg) self)))
                   (set_topic (msg_content msg) self)))
    with (msg_content msg).
  rewrite Hrun. cbn [bind].
  unfold _handle_directory. cbv beta zeta.
  pose proof (directory_loop_spec (language self) (titles_directory titles)
                [] (titles_title titles ++ nl) [] U) as Hloop.
  simpl app in Hloop.
  match goal with
  | |- context [directory_loop ?l ?d ?k ?t ?a] =>
      change (directory_loop l d k t a)
        with (directory_loop (language self) (titles_directory titles)
                (dict_keys (titles_directory titles))
                (titles_title titles ++ nl) [])
  end.
  rewrite Hloop. cbn [bind]. rewrite <- app_assoc. reflexivity.
Qed.

(** [_think] selects the next task: index 0 when nothing is selected, the
    index after the current one otherwise. *)
Lemma think_select (self : StoryAssistant) (done tl : list Action)
    (ch : Action) :
  actions self = done ++ ch :: tl ->
  (rc_todo self = None /\ done = [])
  \/ (rc_todo self <> None /\ rc_state self = Z.of_nat (List.length done) - 1) ->
  _think self
  = Ok (set_rc_todo (Some ch)
          (set_rc_state (Z.of_nat (List.length done))
             (set_states (actions self) self))).
Proof.
  intros Hact [[Htodo Hdone]|[Htodo Hst]]; unfold _think; cbv zeta;
    change (rc_todo (set_states (actions self) self)) with (rc_todo self).
  - rewrite Htodo. subst done. unfold _set_state. cbv zeta.
    change (0 >=? 0) with true. cbv iota.
    change (actions (set_rc_state 0 (set_states (actions self) self)))
      with (actions self).
    rewrite Hact. reflexivity.
  - destruct (rc_todo self) as [t|]; [|contradiction].
    change (rc_state (set_states (actions self) self)) with (rc_state self).
    change (states (set_states (actions self) self)) with (actions self).
    rewrite Hst, Hact, length_app. simpl List.length.
    replace (Z.of_nat (List.length done) - 1 + 1) with (Z.of_nat (List.length done))
      by lia.
    replace (Z.of_nat (List.length done)
             <? Z.of_nat (List.length done + S (List.length tl)))
      with true by (symmetry; apply Z.ltb_lt; lia).
    unfold _set_state. cbv zeta.
    replace (Z.of_nat (List.length done) >=? 0) with true
      by (symmetry; apply Z.geb_le; lia).
    change (actions (set_rc_state (Z.of_nat (List.length done))
                       (set_states (actions self) self)))
      with (actions self).
    rewrite Hact at 1. rewrite Nat2Z.id, nth_error_app2 by lia.
    rewrite Nat.sub_diag. reflexivity.
Qed.

(** After the last task [_think] clears the selection. *)
Lemma think_finish (self : StoryAssistant) :
  rc_todo self <> None ->
  rc_state self = Z.of_nat (List.length (actions self)) - 1 ->
  _think self = Ok (set_rc_todo None (set_states (actions self) self)).
Proof.
  intros Htodo Hst. unfold _think. cbv zeta.
  change (rc_todo (set_states (actions self) self)) with (rc_todo self).
  destruct (rc_todo self) as [t|]; [|contradiction].
  change (rc_state (set_states (actions self) self)) with (rc_state self).
  change (states (set_states (actions self) self)) with (actions self).
  rewrite Hst.
  now replace (Z.of_nat (List.length (actions self)) - 1 + 1
               <? Z.of_nat (List.length (actions self)))
    with false by (symmetry; apply Z.ltb_ge; lia).
Qed.

Lemma react_loop_S (fuel : nat) (msg : option Message)
    (self : StoryAssistant) (w : World L) :
  _react_loop extract_struct (S fuel) msg self w =
  self1 <- _think self ;;
  match rc_todo self1 with
  | None => Ok (msg, self1, w)
  | Some _ =>
      '(m, self2, w1) <- _act extract_struct fuel self1 w ;;
      _react_loop extract_struct fuel (Some m) self2 w1
  end.
Proof. reflexivity. Qed.

Lemma assemble_nonempty (total resp : str) :
  total <> [] -> assemble total resp = total ++ nl ++ nl ++ nl ++ resp.
Proof.
  intros NE. unfold assemble. destruct total as [|c t]; [contradiction|].
  change (str_eqb (c :: t) (py "")) with false. simpl negb. cbv iota.
  now rewrite <- !app_assoc.
Qed.

Lemma chapter_outputs_cons (k v b : str) (rest : list (str * str))
    (bodies : list str) :
  chapter_outputs ((k, v) :: rest) (b :: bodies)
  = with_heading k b :: chapter_outputs rest bodies.
Proof. reflexivity. Qed.

Lemma entries_cons (role o : str) (outs : list str) :
  entries role (o :: outs) = mkMessage o (Some role) :: entries role outs.
Proof. reflexivity. Qed.

Lemma chapter_topics_cons (first o : str) (outs : list str) :
  chapter_topics first (o :: outs)
  = first :: chapter_topics (tail_context o) outs.
Proof. reflexivity. Qed.

Lemma run_events_cons (t : Action) (ts : list Action) (x : str)
    (xs : list str) :
  run_events (t :: ts) (x :: xs) = EvRun t x :: run_events ts xs.
Proof. reflexivity. Qed.

Ltac role_simpl :=
  cbn [topic total_content language main_title content_count profile actions
       states rc_state rc_todo rc_memory history
       set_topic set_total_content set_main_title set_content_count
       set_actions set_states set_rc_state set_rc_todo set_rc_memory
       record _init_actions] in *.

(** The chapter phase of the loop of [_react].  [done] are the tasks
    already run, [rest] the entries of the directory still to be written;
    the loop runs them in order, each with the context the code derives
    from what is then the most recent entry of the memory, appends one
    entry per chapter, and ends with nothing selected. *)
Lemma chapters_loop (lang : str) (rest : list (str * str)) :
  forall (done : list Action) (self : StoryAssistant) (w : World L)
         (msg : option Message) (mem : list Message) (prev : Message)
         (fuel : nat),
    actions self = done ++ chapter_tasks lang rest ->
    (rc_todo self = None /\ done = [] /\ rest <> [])
    \/ (rc_todo self <> None
        /\ rc_state self = Z.of_nat (List.length done) - 1 /\ done <> []) ->
    rc_memory self = mem ++ [prev] ->
    total_content self <> [] ->
    0 <= content_count self ->
    (List.length rest + 7 <= fuel)%nat ->
    exists bodies self' w' cl,
      _react_loop extract_struct fuel msg self w
      = Ok (last (map Some (entries (profile self) (chapter_outputs rest bodies)))
              msg,
            self', w')
      /\ List.length bodies = List.length rest
      /\ rc_memory self'
         = rc_memory self ++ entries (profile self) (chapter_outputs rest bodies)
      /\ history self'
         = history self
           ++ run_events (chapter_tasks lang rest)
                (chapter_topics
                   (if content_count self + 1 >? 1
                    then tail_context (msg_content prev)
                    else main_title self)
                   (chapter_outputs rest bodies))
      /\ total_content self'
         = total_content self
           ++ List.concat
                (map (fun o => nl ++ nl ++ nl ++ o) (chapter_outputs rest bodies))
      /\ main_title self' = main_title self
      /\ calls w' = calls w ++ cl
      /\ Forall (fun b => In b (map call_output cl)) bodies.
Proof.
  induction rest as [|[k v] rest IH];
    intros done self w msg mem prev fuel Hact Hsel Hmem Htc Hcc Hf;
    (destruct fuel as [|fuel]; [lia|]); rewrite react_loop_S.
  - destruct Hsel as [[_ [_ NE]]|[Htodo [Hst Hdone]]]; [contradiction|].
    simpl in Hact. rewrite app_nil_r in Hact.
    rewrite think_finish by (rewrite ?Hact; assumption).
    cbn [bind]. role_simpl.
    exists [], (set_rc_todo None (set_states (actions self) self)), w, [].
    role_simpl. simpl. rewrite !app_nil_r.
    repeat split; constructor.
  - change (chapter_tasks lang ((k, v) :: rest))
      with (WriteContent_init lang k v :: chapter_tasks lang rest) in *.
    rewrite (think_select self done (chapter_tasks lang rest)
               (WriteContent_init lang k v) Hact)
      by (destruct Hsel as [[? [? _]]|[? [? _]]]; [left | right]; now split).
    cbn [bind]. role_simpl.
    set (self1 := set_rc_todo (Some (WriteContent_init lang k v))
                    (set_rc_state (Z.of_nat (List.length done))
                       (set_states (actions self) self))).
    destruct (act_chapter_spec fuel self1 w lang k v mem prev)
      as [body [w1 [cl1 [Hstep [Hc1 Hin1]]]]];
      [reflexivity | exact Hmem | lia |].
    rewrite Hstep. cbn [bind].
    subst self1. role_simpl.
    match goal with
    | |- context [_react_loop _ fuel (Some ?m) ?s2 w1] =>
        destruct (IH (done ++ [WriteContent_init lang k v]) s2 w1 (Some m)
                    (mem ++ [prev]) m fuel)
          as [bodies [self' [w' [cl [Hloop [Hlen [Hm [Hh [Ht [Hmt [Hc Hall]]]]]]]]]]]
    end.
    + role_simpl. rewrite Hact, <- app_assoc. reflexivity.
    + right. role_simpl. repeat split.
      * discriminate.
      * rewrite length_app. simpl. lia.
      * destruct done; discriminate.
    + role_simpl. now rewrite Hmem.
    + role_simpl. rewrite assemble_nonempty by assumption.
      destruct (total_content self); [contradiction | discriminate].
    + role_simpl. lia.
    + simpl in Hf. lia.
    + role_simpl.
      exists (body :: bodies), self', w', (cl1 ++ cl).
      rewrite Hloop, !chapter_outputs_cons, !entries_cons.
      repeat split.
      * cbn [map]. now rewrite last_cons_default.
      * simpl. now rewrite Hlen.
      * rewrite Hm. now rewrite <- app_assoc.
      * rewrite Hh.
        replace (content_count self + 1 + 1 >? 1) with true
          by (symmetry; apply Z.gtb_lt; lia).
        rewrite chapter_topics_cons, run_events_cons.
        now rewrite <- app_assoc.
      * rewrite Ht, assemble_nonempty by assumption.
        cbn [map List.concat]. now rewrite <- !app_assoc.
      * exact Hmt.
      * rewrite Hc, Hc1. now rewrite app_assoc.
      * constructor.
        -- rewrite map_app. apply in_or_app. now left.
        -- eapply Forall_impl; [|exact Hall].
           intros b Hb. rewrite map_app. apply in_or_app. now right.
Qed.

Lemma last_map_Some {A : Type} (l : list A) (d : A) :
  last (map Some l) (Some d) = Some (last l d).
Proof.
  revert d. induction l as [|a l IH]; intros d; [reflexivity|].
  cbn [map]. now rewrite !last_cons_default.
Qed.

(** What [_react] does once its loop has ended with the message [m], the
    role [self1] and the world [w1]: lines 270-273.  The document is
    encoded; if that raises, so does the run; otherwise the bytes are
    written under the name [{main_title}.md] and [m] is returned. *)
Lemma react_of_loop (fuel : nat) (self self1 : StoryAssistant)
    (w w1 : World L) (m : Message) (name : str) :
  _react_loop extract_struct fuel None self w = Ok (Some m, self1, w1) ->
  main_title self1 = name ->
  _react extract_struct fuel self w
  = (bytes <- utf8_encode (total_content self1) ;;
     Ok (m, record (EvWrite (name ++ py ".md") bytes) self1, w1)).
Proof.
  intros Hloop Hname. unfold _react. rewrite Hloop. cbn [bind].
  unfold _write_to_file. rewrite Hname.
  destruct (utf8_encode (total_content self1)); reflexivity.
Qed.

(** The loop of a whole run, from a fresh role whose memory ends with the
    request [msg0], when the outline task succeeds on it with a non-empty
    directory.  The loop returns; [bodies] are the texts the chapters' retry
    loops kept, each one an answer of the generator. *)
Lemma react_spec (lang prof : str) (mem : list Message) (msg0 : Message)
    (w w1 : World L) (titles : Titles) (fuel : nat) :
  WriteStoryStruct_run extract_struct lang OUTLINE_WRITE_NODES
    (msg_content msg0) w = Ok (titles, w1) ->
  titles_directory titles <> [] ->
  unique_keys (titles_directory titles) = true ->
  (List.length (titles_directory titles) + 8 <= fuel)%nat ->
  exists bodies m self1 w' cl,
    _react_loop extract_struct fuel None
      (StoryAssistant_init lang prof (mem ++ [msg0])) w
    = Ok (Some m, self1, w')
    /\ List.length bodies = List.length (titles_directory titles)
    /\ rc_memory self1
       = (mem ++ [msg0])
         ++ entries prof (chapter_outputs (titles_directory titles) bodies)
    /\ history self1
       = history (StoryAssistant_init lang prof (mem ++ [msg0]))
         ++ [EvRun (WriteStoryStruct_init lang) (msg_content msg0);
             EvInitActions (chapter_tasks lang (titles_directory titles))]
         ++ run_events (chapter_tasks lang (titles_directory titles))
              (chapter_topics (titles_title titles)
                 (chapter_outputs (titles_directory titles) bodies))
    /\ total_content self1
       = py "# " ++ titles_title titles
         ++ List.concat
              (map (fun o => nl ++ nl ++ nl ++ o)
                 (chapter_outputs (titles_directory titles) bodies))
    /\ main_title self1 = titles_title titles
    /\ In m (entries prof (chapter_outputs (titles_directory titles) bodies))
    /\ calls w' = calls w1 ++ cl
    /\ Forall (fun b => In b (map call_output cl)) bodies.
Proof.
  intros Hrun NE U Hf.
  destruct fuel as [|fuel]; [lia|].
  rewrite react_loop_S.
  set (self0 := StoryAssistant_init lang prof (mem ++ [msg0])).
  rewrite (think_select self0 [] [] (WriteStoryStruct_init lang))
    by (try reflexivity; left; now split).
  cbn [bind]. role_simpl.
  rewrite (act_outline_spec fuel _ w w1 lang OUTLINE_WRITE_NODES mem msg0 titles)
    by (try reflexivity; assumption).
  cbn [bind].
  match goal with
  | |- context [_react_loop _ fuel (Some ?m) ?s2 w1] =>
      destruct (chapters_loop lang (titles_directory titles) [] s2 w1 (Some m)
                  mem msg0 fuel)
        as [bodies [self' [w' [cl [Hloop [Hlen [Hm [Hh [Ht [Hmt [Hc Hall]]]]]]]]]]];
      [reflexivity
      | left; repeat split; assumption
      | reflexivity
      | subst self0; unfold StoryAssistant_init; role_simpl;
        change (py "") with (@nil char); change (py "# ") with [35%N; 32%N];
        discriminate
      | subst self0; unfold StoryAssistant_init; role_simpl; lia
      | lia
      | ]
  end.
  rewrite Hloop.
  subst self0. unfold StoryAssistant_init in *. role_simpl.
  change (0 + 1 >? 1) with false in Hh. cbv iota in Hh.
  change (py "" ++ py "# " ++ titles_title titles)
    with (py "# " ++ titles_title titles) in Ht.
  rewrite last_map_Some.
  eexists bodies, _, self', w', cl. split; [reflexivity|].
  repeat split; try assumption.
  apply last_In.
  destruct (titles_directory titles) as [|[k v] d]; [contradiction|].
  destruct bodies; discriminate.
Qed.

Lemma chapter_topics_length (first : str) (outs : list str) :
  List.length (chapter_topics first outs) = List.length outs.
Proof.
  revert first. induction outs as [|o outs IH]; intros first; [reflexivity|].
  rewrite chapter_topics_cons. simpl. now rewrite IH.
Qed.

Lemma chapter_outputs_length (d : list (str * str)) (bodies : list str) :
  List.length bodies = List.length d ->
  List.length (chapter_outputs d bodies) = List.length d.
Proof.
  intros E. unfold chapter_outputs. rewrite length_map, length_combine. lia.
Qed.

(** C5: in a run, the loop always completes, and in it the outline task is
    the first task to run and runs once; right after it the action list is
    set, once, to one chapter task per entry of the directory in the
    directory's order; the chapter tasks then run from the first to the
    last, in that order, and nothing else runs.  (The first
    [EvInitActions] is the one of the constructor, before the run.)  After
    the loop the run encodes the document and writes it, or raises when
    the document cannot be encoded. *)
Theorem C5_outline_then_chapters (lang prof : str)
    (mem : list Message) (msg0 : Message) (w w1 : World L) (titles : Titles)
    (fuel : nat) :
  WriteStoryStruct_run extract_struct lang OUTLINE_WRITE_NODES
    (msg_content msg0) w = Ok (titles, w1) ->
  titles_directory titles <> [] ->
  unique_keys (titles_directory titles) = true ->
  (List.length (titles_directory titles) + 8 <= fuel)%nat ->
  exists topics m self1 w',
    _react_loop extract_struct fuel None
      (StoryAssistant_init lang prof (mem ++ [msg0])) w
    = Ok (Some m, self1, w')
    /\ List.length topics = List.length (titles_directory titles)
    /\ history self1
       = [EvInitActions [WriteStoryStruct_init lang];
          EvRun (WriteStoryStruct_init lang) (msg_content msg0);
          EvInitActions (chapter_tasks lang (titles_directory titles))]
         ++ run_events (chapter_tasks lang (titles_directory titles)) topics
    /\ _react extract_struct fuel
         (StoryAssistant_init lang prof (mem ++ [msg0])) w
       = (bytes <- utf8_encode (total_content self1) ;;
          Ok (m,
              record (EvWrite (titles_title titles ++ py ".md") bytes) self1,
              w')).
Proof.
  intros Hrun NE U Hf.
  destruct (react_spec lang prof mem msg0 w w1 titles fuel Hrun NE U Hf)
    as [bodies [m [self1 [w' [cl [Hr [Hlen [_ [Hh [_ [Hmt _]]]]]]]]]]].
  exists (chapter_topics (titles_title titles)
            (chapter_outputs (titles_directory titles) bodies)), m, self1, w'.
  split; [exact Hr|]. split; [|split].
  - now rewrite chapter_topics_length, chapter_outputs_length.
  - exact Hh.
  - exact (react_of_loop fuel _ self1 w w' m _ Hr Hmt).
Qed.

(** C7: in a run, the first chapter task to run is the task of the first
    entry of the directory, and the context it is run with is the title of
    the outline, whatever the memory holds and whatever the generator
    answers. *)
Theorem C7_first_chapter_gets_title (lang prof : str)
    (mem : list Message) (msg0 : Message) (w w1 : World L) (titles : Titles)
    (fuel : nat) :
  WriteStoryStruct_run extract_struct lang OUTLINE_WRITE_NODES
    (msg_content msg0) w = Ok (titles, w1) ->
  titles_directory titles <> [] ->
  unique_keys (titles_directory titles) = true ->
  (List.length (titles_directory titles) + 8 <= fuel)%nat ->
  exists k v d later m self1 w',
    _react_loop extract_struct fuel None
      (StoryAssistant_init lang prof (mem ++ [msg0])) w
    = Ok (Some m, self1, w')
    /\ titles_directory titles = (k, v) :: d
    /\ history self1
       = [EvInitActions [WriteStoryStruct_init lang];
          EvRun (WriteStoryStruct_init lang) (msg_content msg0);
          EvInitActions (chapter_tasks lang (titles_directory titles));
          EvRun (WriteContent_init lang k v) (titles_title titles)]
         ++ later
    /\ _react extract_struct fuel
         (StoryAssistant_init lang prof (mem ++ [msg0])) w
       = (bytes <- utf8_encode (total_content self1) ;;
          Ok (m,
              record (EvWrite (titles_title titles ++ py ".md") bytes) self1,
              w')).
Proof.
  intros Hrun NE U Hf.
  destruct (react_spec lang prof mem msg0 w w1 titles fuel Hrun NE U Hf)
    as [bodies [m [self1 [w' [cl [Hr [Hlen [_ [Hh [_ [Hmt _]]]]]]]]]]].
  pose proof (react_of_loop fuel _ self1 w w' m _ Hr Hmt) as Hreact.
  destruct (titles_directory titles) as [|[k v] d] eqn:Ed; [contradiction|].
  destruct bodies as [|b bodies]; [discriminate|].
  rewrite chapter_outputs_cons, chapter_topics_cons in Hh.
  change (chapter_tasks lang ((k, v) :: d))
    with (WriteContent_init lang k v :: chapter_tasks lang d) in Hh at 2.
  rewrite run_events_cons in Hh.
  eexists k, v, d, _, m, self1, w'.
  split; [exact Hr|]. split; [reflexivity|]. split; [exact Hh|].
  exact Hreact.
Qed.

(** C9, as the code has it: the memory only grows, and a run appends one
    entry per chapter and none for the outline.  When the loop of a run
    over a directory of N entries ends, the memory is the memory before
    the run, which ends with the request the outline task reads, followed
    by the N chapter outputs; its length is the length before the run plus
    N.  Writing the document does not touch the memory, so this is also
    the memory after the run when the run returns. *)
Theorem C9_memory_grows_by_chapters (lang prof : str)
    (mem : list Message) (msg0 : Message) (w w1 : World L) (titles : Titles)
    (fuel : nat) :
  WriteStoryStruct_run extract_struct lang OUTLINE_WRITE_NODES
    (msg_content msg0) w = Ok (titles, w1) ->
  titles_directory titles <> [] ->
  unique_keys (titles_directory titles) = true ->
  (List.length (titles_directory titles) + 8 <= fuel)%nat ->
  exists bodies m self1 w',
    _react_loop extract_struct fuel None
      (StoryAssistant_init lang prof (mem ++ [msg0])) w
    = Ok (Some m, self1, w')
    /\ List.length bodies = List.length (titles_directory titles)
    /\ rc_memory self1
       = (mem ++ [msg0])
         ++ entries prof (chapter_outputs (titles_directory titles) bodies)
    /\ List.length (rc_memory self1)
       = (List.length (mem ++ [msg0])
          + List.length (titles_directory titles))%nat
    /\ _react extract_struct fuel
         (StoryAssistant_init lang prof (mem ++ [msg0])) w
       = (bytes <- utf8_encode (total_content self1) ;;
          Ok (m,
              record (EvWrite (titles_title titles ++ py ".md") bytes) self1,
              w'))
    /\ (forall m' self' w2,
          _react extract_struct fuel
            (StoryAssistant_init lang prof (mem ++ [msg0])) w
          = Ok (m', self', w2) ->
          rc_memory self' = rc_memory self1).
Proof.
  intros Hrun NE U Hf.
  destruct (react_spec lang prof mem msg0 w w1 titles fuel Hrun NE U Hf)
    as [bodies [m [self1 [w' [cl [Hr [Hlen [Hm [_ [_ [Hmt _]]]]]]]]]]].
  pose proof (react_of_loop fuel _ self1 w w' m _ Hr Hmt) as Hreact.
  exists bodies, m, self1, w'.
  split; [exact Hr|]. split; [exact Hlen|]. split; [exact Hm|].
  split; [|split; [exact Hreact|]].
  - rewrite Hm, length_app. unfold entries.
    now rewrite length_map, chapter_outputs_length.
  - intros m' self' w2 E. rewrite Hreact in E.
    destruct (utf8_encode (total_content self1)); cbn [bind] in E;
      try discriminate.
    injection E as _ <- _. reflexivity.
Qed.

(** C10: every entry a run appends to the memory is a chapter's formatted
    output, the heading behind the marker, a blank line, then the text the
    retry loop kept, that text being an answer of the generator.  The
    context of every chapter after the first is [tail_context] of the whole
    entry before it, so the length test and the character taken both count
    the heading and the blank line. *)
Theorem C10_entries_carry_heading (lang prof : str)
    (mem : list Message) (msg0 : Message) (w w1 : World L) (titles : Titles)
    (fuel : nat) :
  WriteStoryStruct_run extract_struct lang OUTLINE_WRITE_NODES
    (msg_content msg0) w = Ok (titles, w1) ->
  titles_directory titles <> [] ->
  unique_keys (titles_directory titles) = true ->
  (List.length (titles_directory titles) + 8 <= fuel)%nat ->
  exists bodies m self1 w' cl,
    _react_loop extract_struct fuel None
      (StoryAssistant_init lang prof (mem ++ [msg0])) w
    = Ok (Some m, self1, w')
    /\ List.length bodies = List.length (titles_directory titles)
    /\ calls w' = calls w1 ++ cl
    /\ Forall (fun b => In b (map call_output cl)) bodies
    /\ rc_memory self1
       = (mem ++ [msg0])
         ++ map (fun p =>
                   mkMessage (py "## " ++ fst (fst p) ++ nl ++ nl ++ snd p)
                     (Some prof))
              (combine (titles_directory titles) bodies)
    /\ history self1
       = [EvInitActions [WriteStoryStruct_init lang];
          EvRun (WriteStoryStruct_init lang) (msg_content msg0);
          EvInitActions (chapter_tasks lang (titles_directory titles))]
         ++ run_events (chapter_tasks lang (titles_directory titles))
              (removelast
                 (titles_title titles
                  :: map (fun p =>
                            tail_context
                              (py "## " ++ fst (fst p) ++ nl ++ nl ++ snd p))
                       (combine (titles_directory titles) bodies)))
    /\ _react extract_struct fuel
         (StoryAssistant_init lang prof (mem ++ [msg0])) w
       = (bytes <- utf8_encode (total_content self1) ;;
          Ok (m,
              record (EvWrite (titles_title titles ++ py ".md") bytes) self1,
              w')).
Proof.
  intros Hrun NE U Hf.
  destruct (react_spec lang prof mem msg0 w w1 titles fuel Hrun NE U Hf)
    as [bodies [m [self1 [w' [cl [Hr [Hlen [Hm [Hh [_ [Hmt [_ [Hc Hall]]]]]]]]]]]]].
  exists bodies, m, self1, w', cl.
  split; [exact Hr|]. split; [exact Hlen|]. split; [exact Hc|].
  split; [exact Hall|]. split; [|split].
  - rewrite Hm. unfold entries, chapter_outputs, with_heading.
    now rewrite map_map.
  - rewrite Hh. unfold chapter_topics, chapter_outputs, with_heading.
    now rewrite map_map.
  - exact (react_of_loop fuel _ self1 w w' m _ Hr Hmt).
Qed.

End RunProperties.

Lemma Demo_outline_run :
  WriteStoryStruct_run Demo.parser (py "Chinese") OUTLINE_WRITE_NODES
    (py "game") Demo.world0
  = Ok (Demo.outline, Demo.world1).
Proof. vm_compute. reflexivity. Qed.

Lemma C5_outline_then_chapters_witness :
  exists topics m self1 w',
    _react_loop Demo.parser 10 None Demo.role0 Demo.world0
    = Ok (Some m, self1, w')
    /\ List.length topics = List.length (titles_directory Demo.outline)
    /\ history self1
       = [EvInitActions [WriteStoryStruct_init (py "Chinese")];
          EvRun (WriteStoryStruct_init (py "Chinese")) (py "game");
          EvInitActions
            (chapter_tasks (py "Chinese") (titles_directory Demo.outline))]
         ++ run_events
              (chapter_tasks (py "Chinese") (titles_directory Demo.outline))
              topics
    /\ _react Demo.parser 10 Demo.role0 Demo.world0
       = (bytes <- utf8_encode (total_content self1) ;;
          Ok (m,
              record (EvWrite (titles_title Demo.outline ++ py ".md") bytes)
                self1,
              w')).
Proof.
  apply (C5_outline_then_chapters Demo.parser (py "Chinese") Demo.profile0 []
           (mkMessage (py "game") None) Demo.world0 Demo.world1
           Demo.outline 10).
  - exact Demo_outline_run.
  - discriminate.
  - reflexivity.
  - simpl. lia.
Defined.

Lemma C7_first_chapter_gets_title_witness :
  exists k v d later m self1 w',
    _react_loop Demo.parser 10 None Demo.role0 Demo.world0
    = Ok (Some m, self1, w')
    /\ titles_directory Demo.outline = (k, v) :: d
    /\ history self1
       = [EvInitActions [WriteStoryStruct_init (py "Chinese")];
          EvRun (WriteStoryStruct_init (py "Chinese")) (py "game");
          EvInitActions
            (chapter_tasks (py "Chinese") (titles_directory Demo.outline));
          EvRun (WriteContent_init (py "Chinese") k v)
            (titles_title Demo.outline)]
         ++ later
    /\ _react Demo.parser 10 Demo.role0 Demo.world0
       = (bytes <- utf8_encode (total_content self1) ;;
          Ok (m,
              record (EvWrite (titles_title Demo.outline ++ py ".md") bytes)
                self1,
              w')).
Proof.
  apply (C7_first_chapter_gets_title Demo.parser (py "Chinese") Demo.profile0 []
           (mkMessage (py "game") None) Demo.world0 Demo.world1
           Demo.outline 10).
  - exact Demo_outline_run.
  - discriminate.
  - reflexivity.
  - simpl. lia.
Defined.

Lemma C9_memory_grows_by_chapters_witness :
  exists bodies m self1 w',
    _react_loop Demo.parser 10 None Demo.role0 Demo.world0
    = Ok (Some m, self1, w')
    /\ List.length bodies = List.length (titles_directory Demo.outline)
    /\ rc_memory self1
       = ([] ++ Demo.request)
         ++ entries Demo.profile0
              (chapter_outputs (titles_directory Demo.outline) bodies)
    /\ List.length (rc_memory self1)
       = (List.length ([] ++ Demo.request)
          + List.length (titles_directory Demo.outline))%nat
    /\ _react Demo.parser 10 Demo.role0 Demo.world0
       = (bytes <- utf8_encode (total_content self1) ;;
          Ok (m,
              record (EvWrite (titles_title Demo.outline ++ py ".md") bytes)
                self1,
              w'))
    /\ (forall m' self' w2,
          _react Demo.parser 10 Demo.role0 Demo.world0 = Ok (m', self', w2) ->
          rc_memory self' = rc_memory self1).
Proof.
  apply (C9_memory_grows_by_chapters Demo.parser (py "Chinese") Demo.profile0 []
           (mkMessage (py "game") None) Demo.world0 Demo.world1
           Demo.outline 10).
  - exact Demo_outline_run.
  - discriminate.
  - reflexivity.
  - simpl. lia.
Defined.

(** C9, the claim as stated fails: after a run over a directory of 2
    entries the memory has 3 entries, the request and the two chapters. *)
Lemma C9_counterexample :
  exists m self' w',
    _react Demo.parser 10 Demo.role0 Demo.world0 = Ok (m, self', w')
    /\ List.length (titles_directory Demo.outline) = 2%nat
    /\ List.length (rc_memory self') = 3%nat
    /\ List.length (rc_memory self')
       <> List.length (titles_directory Demo.outline).
Proof.
  vm_compute. do 3 eexists. repeat split. discriminate.
Qed.

Lemma C10_entries_carry_heading_witness :
  exists bodies m self1 w' cl,
    _react_loop Demo.parser 10 None Demo.role0 Demo.world0
    = Ok (Some m, self1, w')
    /\ List.length bodies = List.length (titles_directory Demo.outline)
    /\ calls w' = calls Demo.world1 ++ cl
    /\ Forall (fun b => In b (map call_output cl)) bodies
    /\ rc_memory self1
       = ([] ++ Demo.request)
         ++ map (fun p =>
                   mkMessage (py "## " ++ fst (fst p) ++ nl ++ nl ++ snd p)
                     (Some Demo.profile0))
              (combine (titles_directory Demo.outline) bodies)
    /\ history self1
       = [EvInitActions [WriteStoryStruct_init (py "Chinese")];
          EvRun (WriteStoryStruct_init (py "Chinese")) (py "game");
          EvInitActions
            (chapter_tasks (py "Chinese") (titles_directory Demo.outline))]
         ++ run_events
              (chapter_tasks (py "Chinese") (titles_directory Demo.outline))
              (removelast
                 (titles_title Demo.outline
                  :: map (fun p =>
                            tail_context
                              (py "## " ++ fst (fst p) ++ nl ++ nl ++ snd p))
                       (combine (titles_directory Demo.outline) bodies)))
    /\ _react Demo.parser 10 Demo.role0 Demo.world0
       = (bytes <- utf8_encode (total_content self1) ;;
          Ok (m,
              record (EvWrite (titles_title Demo.outline ++ py ".md") bytes)
                self1,
              w')).
Proof.
  apply (C10_entries_carry_heading Demo.parser (py "Chinese") Demo.profile0 []
           (mkMessage (py "game") None) Demo.world0 Demo.world1
           Demo.outline 10).
  - exact Demo_outline_run.
  - discriminate.
  - reflexivity.
  - simpl. lia.
Defined.

(** C2, at the failing input: the first chapter's text has 150 characters,
    so the entry before the second chapter has 157; the second chapter is
    run with one character, the one 100 places before the end of the
    entry, where the last 100 characters would be a text of 100
    characters. *)
Theorem C2_single_character_context :
  let w := mkWorld [py "A"; py "B"; Demo.long_text; py "two"] [] in
  let entry := with_heading (py "c1") Demo.long_text in
  exists m self' w',
    _react Demo.parser 10 Demo.role0 w = Ok (m, self', w')
    /\ nth_error (rc_memory self') 1
       = Some (mkMessage entry (Some Demo.profile0))
    /\ len entry = 157
    /\ nth_error (history self') 4
       = Some (EvRun (WriteContent_init (py "Chinese") (py "c2") (py "s2"))
                 [1050%N])
    /\ slice_from entry (-100) = map N.of_nat (seq 1050 100).
Proof.
  vm_compute. do 3 eexists. repeat split.
Qed.

(** A run whose first chapter's text holds a lone surrogate: the loop ends
    as for any other text, but the document cannot be encoded, and the run
    raises before anything is written. *)
Example run_raises_on_surrogate :
  let w := mkWorld [py "A"; py "B"; py "x" ++ [55296%N]; py "two"] [] in
  _react Demo.parser 10 Demo.role0 w = Raise ValueError
  /\ exists r, _react_loop Demo.parser 10 None Demo.role0 w = Ok r.
Proof.
  split; [vm_compute; reflexivity | eexists; vm_compute; reflexivity].
Qed.

(** * Further properties of the code *)

Ltac role_simpl :=
  cbn [topic total_content language main_title content_count profile actions
       states rc_state rc_todo rc_memory history
       set_topic set_total_content set_main_title set_content_count
       set_actions set_states set_rc_state set_rc_todo set_rc_memory
       record _init_actions] in *.

(** ** [fill] *)

Section MoreFill.

Context {L : Type} {G : Generator L}.

Lemma simple_fill_shape (a b : str * ActionNode) (c schema mode : str)
    (w : World L) :
  same_shape a b ->
  simple_fill (set_context c (snd a)) schema mode w
  = simple_fill (set_context c (snd b)) schema mode w.
Proof.
  destruct a as [ka [k1 i1 e1 s1 c1 o1 ch1]].
  destruct b as [kb [k2 i2 e2 s2 c2 o2 ch2]].
  unfold same_shape. simpl.
  intros [_ [-> [-> [-> [-> ->]]]]]. reflexivity.
Qed.

Lemma fill_children_shape (cs1 cs2 : list (str * ActionNode)) :
  Forall2 same_shape cs1 cs2 ->
  forall (c schema mode : str) (w : World L),
    fill_children cs1 c schema mode w = fill_children cs2 c schema mode w.
Proof.
  induction 1 as [|a b cs1 cs2 Hab _ IH]; intros c schema mode w;
    [reflexivity|].
  pose proof (simple_fill_shape a b c schema mode w Hab) as E.
  destruct Hab as [Hk _].
  destruct a as [ka na], b as [kb nb]. simpl in Hk, E. subst kb.
  simpl. rewrite E.
  destruct (simple_fill (set_context c nb) schema mode w) as [child w1].
  now rewrite IH.
Qed.

Lemma fill_children_keeps_shape (cs : list (str * ActionNode)) :
  forall (c schema mode : str) (w : World L),
    Forall2 same_shape (snd (fst (fill_children cs c schema mode w))) cs.
Proof.
  induction cs as [|[k i] cs IH]; intros c schema mode w; simpl;
    [constructor|].
  unfold simple_fill.
  destruct (generate (llm w) (node_instruction (set_context c i))
              (node_context (set_context c i))) as [out l'].
  match goal with
  | |- context [fill_children cs ?c' schema mode ?w'] =>
      specialize (IH c' schema mode w');
      destruct (fill_children cs c' schema mode w') as [[x cs'] w2]
  end.
  simpl in IH |- *. constructor; [|exact IH].
  destruct i. unfold same_shape. simpl. repeat split.
Qed.

(** X1: a fill leaves nothing behind that a later fill could see.  Filling
    the node an earlier complex fill returned gives, for every context and
    world, exactly what filling the original node gives: the same
    questions to the generator, the same node.  This is what makes the
    attempts of the retry loop independent of one another. *)
Theorem X1_refill_forgets_previous_fill :
  forall (self n0 : ActionNode) (ctx0 schema0 mode0 : str) (w0 w0' : World L)
         (ctx schema mode : str) (w : World L),
    fill self ctx0 schema0 mode0 (py "complex") w0 = (Some n0, w0') ->
    fill n0 ctx schema mode (py "complex") w
    = fill self ctx schema mode (py "complex") w.
Proof.
  intros self n0 ctx0 schema0 mode0 w0 w0' ctx schema mode w H0.
  unfold fill in *.
  replace (str_eqb (py "complex") (py "simple")) with false in *
    by reflexivity.
  replace (str_eqb (py "complex") (py "complex")) with true in *
    by reflexivity.
  cbv zeta in H0.
  pose proof (fill_children_keeps_shape
                (node_children (set_context ctx0 self)) ctx0
                (match node_schema (set_context ctx0 self) with
                 | [] => schema0
                 | _ :: _ => node_schema (set_context ctx0 self)
                 end) mode0 w0) as Hs.
  destruct (fill_children (node_children (set_context ctx0 self)) ctx0 _
              mode0 w0) as [[c cs] w1].
  injection H0 as <- <-. simpl in Hs.
  cbv zeta.
  cbn [node_schema node_children node_key node_instruction node_example
       node_context node_content set_context set_content set_children] in *.
  rewrite (fill_children_shape cs (node_children self) Hs).
  destruct (fill_children (node_children self) ctx _ mode w) as [[c' cs'] w2].
  reflexivity.
Qed.

End MoreFill.

Lemma X1_refill_forgets_previous_fill_witness :
  exists n0 w0',
    fill CONTENT_WRITE_NODES (py "first") (py "raw") (py "auto")
      (py "complex") (mkWorld [py "A"; py "B"] []) = (Some n0, w0')
    /\ node_content n0 = py "A"
    /\ fill n0 (py "second") (py "raw") (py "auto") (py "complex") w0'
       = fill CONTENT_WRITE_NODES (py "second") (py "raw") (py "auto")
           (py "complex") w0'.
Proof.
  destruct (fill CONTENT_WRITE_NODES (py "first") (py "raw") (py "auto")
              (py "complex") (mkWorld [py "A"; py "B"] []))
    as [[n0|] w0'] eqn:E; [|vm_compute in E; discriminate].
  exists n0, w0'. split; [reflexivity|]. split.
  - vm_compute in E. injection E as <- _. reflexivity.
  - exact (X1_refill_forgets_previous_fill CONTENT_WRITE_NODES n0 (py "first")
             (py "raw") (py "auto") (mkWorld [py "A"; py "B"] []) w0'
             (py "second") (py "raw") (py "auto") w0' E).
Defined.

(** ** The two prompts and the test of the retry loop *)

Lemma app_middle_inj {A : Type} (a t b l1 l2 c : list A) :
  a ++ t ++ b ++ l1 ++ c = a ++ t ++ b ++ l2 ++ c -> l1 = l2.
Proof.
  intros E. do 3 apply app_inv_head in E. now apply app_inv_tail in E.
Qed.

(** X2: the prompt of the outline task tells the languages apart: for one
    topic, two languages give the same prompt only when they are the same
    language. *)
Theorem X2_outline_prompt_determines_language :
  forall topic language1 language2 : str,
    format DIRECTORY_PROMPT
      [(py "topic", topic); (py "language", language1)]
    = format DIRECTORY_PROMPT
        [(py "topic", topic); (py "language", language2)] ->
    language1 = language2.
Proof.
  intros topic l1 l2 E. rewrite !DIRECTORY_PROMPT_format_eq in E.
  apply (app_middle_inj (nl ++ py "        小说的题材是") topic
           (py "。请严格使用") l1 l2
           (py "语言，并按照instruction中的说明内容输出内容" ++ nl
            ++ py "        ")).
  rewrite <- !app_assoc. congruence.
Qed.

Lemma X2_outline_prompt_determines_language_witness :
  py "Chinese" = py "Chinese".
Proof.
  apply (X2_outline_prompt_determines_language (py "game") (py "Chinese")
           (py "Chinese")).
  reflexivity.
Defined.

(** X3: the test of line 176 asks for another attempt exactly when both
    phrases occur in the text; a text with one of them, or with none, is
    let through. *)
Theorem X3_retry_exactly_when_both_phrases :
  forall resp : str,
    accepts resp = false
    <-> occurs MARKER_FULFILL resp /\ occurs MARKER_COMPLETE resp.
Proof. exact accepts_false_iff. Qed.

(** ** The role, step by step *)

Section MoreRun.

Context {L : Type} {G : Generator L}.
Variable extract_struct : str -> result Titles.

Lemma OUTLINE_WRITE_NODES_children :
  node_children OUTLINE_WRITE_NODES
  = [(py "Struct Write", STRUCT_WRITE); (py "Directory Write", DIRECTORY_WRITE)].
Proof. reflexivity. Qed.

Lemma outline_run_spec :
  forall (lang topic : str) (w : World L),
  exists prompt a b w',
    format DIRECTORY_PROMPT [(py "topic", topic); (py "language", lang)]
    = Ok prompt
    /\ calls w'
       = calls w ++ [mkCall STRUCT_WRITE_INSTRUCTION prompt a;
                     mkCall DIRECTORY_WRITE_INSTRUCTION a b]
    /\ WriteStoryStruct_run extract_struct lang OUTLINE_WRITE_NODES topic w
       = (titles <- extract_struct b ;; Ok (titles, w')).
Proof.
  intros lang topic w.
  unfold WriteStoryStruct_run. rewrite DIRECTORY_PROMPT_format_eq.
  cbn [bind].
  match goal with
  | |- context [fill OUTLINE_WRITE_NODES ?p _ _ _ w] => set (prompt := p)
  end.
  unfold fill.
  replace (str_eqb (py "complex") (py "simple")) with false by reflexivity.
  replace (str_eqb (py "complex") (py "complex")) with true by reflexivity.
  cbv zeta.
  change (node_children (set_context prompt OUTLINE_WRITE_NODES))
    with [(py "Struct Write", STRUCT_WRITE);
          (py "Directory Write", DIRECTORY_WRITE)].
  change (node_schema (set_context prompt OUTLINE_WRITE_NODES)) with (@nil char).
  cbv iota.
  cbn [fill_children]. unfold simple_fill.
  change (node_instruction (set_context prompt STRUCT_WRITE))
    with STRUCT_WRITE_INSTRUCTION.
  change (node_context (set_context prompt STRUCT_WRITE)) with prompt.
  destruct (generate (llm w) STRUCT_WRITE_INSTRUCTION prompt) as [a l1].
  cbn [llm calls node_content set_content].
  change (node_instruction (set_context a DIRECTORY_WRITE))
    with DIRECTORY_WRITE_INSTRUCTION.
  change (node_context (set_context a DIRECTORY_WRITE)) with a.
  destruct (generate l1 DIRECTORY_WRITE_INSTRUCTION a) as [b l2].
  cbn [node_content set_content].
  eexists prompt, a, b, _. split; [reflexivity|]. split; [|reflexivity].
  cbn [calls]. now rewrite <- app_assoc.
Qed.


(** X5: what lines 249-255 hand to a chapter's [run].  For the first
    chapter it is the main title, whatever the memory holds.  Later it is
    the most recent entry itself when the entry has at most 100
    characters, and otherwise the single character 100 places before the
    end of the entry; the lines never raise. *)
Theorem X5_previous_context_cases :
  forall (self : StoryAssistant) (msg : Message),
    (content_count self <= 1 ->
     previous_context self msg = Ok (main_title self))
    /\ (1 < content_count self -> len (msg_content msg) <= 100 ->
        previous_context self msg = Ok (msg_content msg))
    /\ (1 < content_count self -> 100 < len (msg_content msg) ->
        exists c,
          nth_error (msg_content msg) (List.length (msg_content msg) - 100)
          = Some c
          /\ previous_context self msg = Ok [c]).
Proof.
  intros self msg. rewrite previous_context_spec. repeat split.
  - intros H. rewrite Z.gtb_ltb.
    now replace (1 <? content_count self) with false
      by (symmetry; apply Z.ltb_ge; lia).
  - intros H Hl. rewrite Z.gtb_ltb.
    replace (1 <? content_count self) with true
      by (symmetry; apply Z.ltb_lt; lia).
    now rewrite tail_context_short.
  - intros H Hl. rewrite Z.gtb_ltb.
    replace (1 <? content_count self) with true
      by (symmetry; apply Z.ltb_lt; lia).
    destruct (getitem_minus_100 (msg_content msg)) as [c [Hc _]]; [lia|].
    exists c. split; [exact Hc|]. unfold tail_context.
    replace (len (msg_content msg) >? 100) with true
      by (symmetry; apply Z.gtb_lt; lia).
    now rewrite Hc.
Qed.

(** X6: [_handle_directory] on a dict never raises.  It returns the title
    line followed by one "- heading" line per entry, in order; the action
    list becomes one chapter task per entry, in order, each with the
    language of the role; nothing is selected afterwards; the document
    gains the title line; the memory, the chapter counter and the cursor
    index are left as they were. *)
Theorem X6_handle_directory_effects :
  forall (titles : Titles) (self : StoryAssistant),
    unique_keys (titles_directory titles) = true ->
    exists self',
      _handle_directory titles self
      = Ok (mkMessage
              (titles_title titles ++ nl
               ++ directory_text (titles_directory titles)) None,
            self')
      /\ actions self'
         = chapter_tasks (language self) (titles_directory titles)
      /\ rc_todo self' = None
      /\ main_title self' = titles_title titles
      /\ total_content self'
         = total_content self ++ py "# " ++ titles_title titles
      /\ rc_memory self' = rc_memory self
      /\ content_count self' = content_count self
      /\ rc_state self' = rc_state self
      /\ history self'
         = history self
           ++ [EvInitActions
                 (chapter_tasks (language self) (titles_directory titles))].
Proof.
  intros titles self U.
  unfold _handle_directory. cbv beta zeta.
  pose proof (directory_loop_spec (language self) (titles_directory titles)
                [] (titles_title titles ++ nl) [] U) as Hloop.
  simpl app in Hloop.
  match goal with
  | |- context [directory_loop ?l ?d ?k ?t ?a] =>
      change (directory_loop l d k t a)
        with (directory_loop (language self) (titles_directory titles)
                (dict_keys (titles_directory titles))
                (titles_title titles ++ nl) [])
  end.
  rewrite Hloop. cbn [bind]. rewrite <- app_assoc.
  eexists. split; [reflexivity|]. repeat split.
Qed.

Lemma think_empty (self : StoryAssistant) :
  rc_todo self = None -> actions self = [] -> _think self = Raise IndexError.
Proof.
  intros Et Ea. unfold _think, _set_state. cbv zeta.
  change (rc_todo (set_states (actions self) self)) with (rc_todo self).
  rewrite Et. change (0 >=? 0) with true. cbv iota.
  change (actions (set_rc_state 0 (set_states (actions self) self)))
    with (actions self).
  now rewrite Ea.
Qed.

(** X7: [_think] fails in one situation only, when nothing is selected and
    the action list is empty; then it raises [IndexError]. *)
Theorem X7_think_fails_only_on_empty_list :
  forall self : StoryAssistant,
    (rc_todo self = None /\ actions self = [] ->
     _think self = Raise IndexError)
    /\ (~ (rc_todo self = None /\ actions self = []) ->
        exists self', _think self = Ok self').
Proof.
  intros self. split.
  - intros [Et E]. now apply think_empty.
  - unfold _think, _set_state. cbv zeta.
    change (rc_todo (set_states (actions self) self)) with (rc_todo self).
    change (rc_state (set_states (actions self) self)) with (rc_state self).
    change (states (set_states (actions self) self)) with (actions self).
    intros N. destruct (rc_todo self) as [t|] eqn:Et.
    + destruct (rc_state self + 1 <? Z.of_nat (List.length (actions self)))
        eqn:Elt; [|eexists; reflexivity].
      apply Z.ltb_lt in Elt.
      destruct (rc_state self + 1 >=? 0) eqn:Ege; [|eexists; reflexivity].
      apply Z.geb_le in Ege.
      change (actions (set_rc_state (rc_state self + 1)
                         (set_states (actions self) self)))
        with (actions self).
      destruct (nth_error (actions self) (Z.to_nat (rc_state self + 1)))
        eqn:En; [eexists; reflexivity|].
      apply nth_error_None in En. lia.
    + change (0 >=? 0) with true. cbv iota.
      change (actions (set_rc_state 0 (set_states (actions self) self)))
        with (actions self).
      destruct (actions self) as [|a l]; [now exfalso; apply N|].
      eexists. reflexivity.
Qed.

(** X8: a step of [_think] only moves the selection.  When it selects a
    task, that task is the one at the cursor index in the action list; the
    action list, the memory, the document, the title and the chapter
    counter are never touched. *)
Theorem X8_think_moves_only_the_selection :
  forall self self' : StoryAssistant,
    _think self = Ok self' ->
    actions self' = actions self
    /\ rc_memory self' = rc_memory self
    /\ total_content self' = total_content self
    /\ main_title self' = main_title self
    /\ content_count self' = content_count self
    /\ history self' = history self
    /\ (rc_todo self' = None
        \/ exists a,
             rc_todo self' = Some a
             /\ 0 <= rc_state self'
             /\ nth_error (actions self) (Z.to_nat (rc_state self'))
                = Some a).
Proof.
  intros self self'. unfold _think, _set_state. cbv zeta.
  change (rc_todo (set_states (actions self) self)) with (rc_todo self).
  change (rc_state (set_states (actions self) self)) with (rc_state self).
  change (states (set_states (actions self) self)) with (actions self).
  destruct (rc_todo self) as [t|].
  - destruct (rc_state self + 1 <? Z.of_nat (List.length (actions self))).
    + destruct (rc_state self + 1 >=? 0) eqn:Ege.
      * change (actions (set_rc_state (rc_state self + 1)
                           (set_states (actions self) self)))
          with (actions self).
        destruct (nth_error (actions self) (Z.to_nat (rc_state self + 1)))
          as [a|] eqn:En; [|discriminate].
        intros E. injection E as <-. repeat split. right. exists a.
        apply Z.geb_le in Ege. repeat split; assumption.
      * intros E. injection E as <-. repeat split. now left.
    + intros E. injection E as <-. repeat split. now left.
  - change (0 >=? 0) with true. cbv iota.
    change (actions (set_rc_state 0 (set_states (actions self) self)))
      with (actions self).
    destruct (nth_error (actions self) (Z.to_nat 0)) as [a|] eqn:En;
      [|discriminate].
    intros E. injection E as <-. repeat split. right. exists a.
    repeat split; [simpl; lia | assumption].
Qed.

(** ** Runs that fail *)

(** X9: a run on an empty memory fails at the outline step with
    [IndexError]: there is no request to read. *)
Theorem X9_empty_memory_raises :
  forall (fuel : nat) (lang prof : str) (w : World L),
    (1 <= fuel)%nat ->
    _react extract_struct fuel (StoryAssistant_init lang prof []) w
    = Raise IndexError.
Proof.
  intros fuel lang prof w Hf. destruct fuel as [|fuel]; [lia|].
  reflexivity.
Qed.

(** X10: when the outline task fails, for one because the parser rejects
    the directory text, the run fails with the same error, and it fails in
    its first step: the first [_think] selects the outline task, the [_act]
    on it raises the error, and so does the loop, whatever fuel it has, one
    unit included, which is one turn of the loop. *)
Theorem X10_outline_failure_aborts_run :
  forall (fuel : nat) (lang prof : str) (mem : list Message) (msg0 : Message)
         (w : World L) (e : exn),
    WriteStoryStruct_run extract_struct lang OUTLINE_WRITE_NODES
      (msg_content msg0) w = Raise e ->
    (1 <= fuel)%nat ->
    exists s1,
      _think (StoryAssistant_init lang prof (mem ++ [msg0])) = Ok s1
      /\ rc_todo s1 = Some (WriteStoryStruct_init lang)
      /\ (forall fuel', _act extract_struct fuel' s1 w = Raise e)
      /\ _react_loop extract_struct 1 None
           (StoryAssistant_init lang prof (mem ++ [msg0])) w = Raise e
      /\ _react_loop extract_struct fuel None
           (StoryAssistant_init lang prof (mem ++ [msg0])) w = Raise e
      /\ _react extract_struct fuel
           (StoryAssistant_init lang prof (mem ++ [msg0])) w = Raise e.
Proof.
  intros fuel lang prof mem msg0 w e Hrun Hf.
  set (self0 := StoryAssistant_init lang prof (mem ++ [msg0])).
  pose proof (think_select self0 [] [] (WriteStoryStruct_init lang)
                eq_refl (or_introl (conj eq_refl eq_refl))) as Hthink.
  assert (Hact : forall fuel',
             _act extract_struct fuel'
               (set_rc_todo (Some (WriteStoryStruct_init lang))
                  (set_rc_state (Z.of_nat (List.length (@nil Action)))
                     (set_states (actions self0) self0))) w = Raise e).
  { intros fuel'. unfold _act. role_simpl. unfold WriteStoryStruct_init.
    cbv beta iota zeta. subst self0. unfold StoryAssistant_init. role_simpl.
    rewrite memory_get_last. cbn [list_first bind]. role_simpl.
    rewrite Hrun. reflexivity. }
  assert (Hloop : forall f, _react_loop extract_struct (S f) None self0 w
                            = Raise e).
  { intros f. rewrite react_loop_S, Hthink. cbn [bind]. role_simpl.
    now rewrite Hact. }
  eexists. split; [exact Hthink|]. split; [reflexivity|].
  split; [exact Hact|]. split; [apply Hloop|].
  destruct fuel as [|fuel]; [lia|].
  split; [apply Hloop|]. unfold _react. now rewrite Hloop.
Qed.

(** X11: an outline whose directory is empty makes the run fail with
    [IndexError]: the action list has been replaced by the empty list and
    the next [_think] selects index 0 of it. *)
Theorem X11_empty_directory_raises :
  forall (fuel : nat) (lang prof : str) (mem : list Message) (msg0 : Message)
         (w w1 : World L) (titles : Titles),
    WriteStoryStruct_run extract_struct lang OUTLINE_WRITE_NODES
      (msg_content msg0) w = Ok (titles, w1) ->
    titles_directory titles = [] ->
    (2 <= fuel)%nat ->
    _react extract_struct fuel (StoryAssistant_init lang prof (mem ++ [msg0])) w
    = Raise IndexError.
Proof.
  intros fuel lang prof mem msg0 w w1 titles Hrun Hd Hf.
  destruct fuel as [|[|fuel]]; [lia | lia |].
  unfold _react. rewrite react_loop_S.
  rewrite (think_select (StoryAssistant_init lang prof (mem ++ [msg0])) [] []
             (WriteStoryStruct_init lang))
    by (try reflexivity; left; now split).
  cbn [bind]. role_simpl.
  rewrite (act_outline_spec extract_struct (S fuel) _ w w1 lang
             OUTLINE_WRITE_NODES mem msg0 titles)
    by (try reflexivity; try assumption; now rewrite Hd).
  cbn [bind]. rewrite react_loop_S.
  rewrite think_empty; [reflexivity | reflexivity |].
  role_simpl. now rewrite Hd.
Qed.

End MoreRun.

Lemma X5_previous_context_cases_witness :
  let self := set_content_count 2 Demo.role0 in
  let msg := mkMessage Demo.long_text None in
  exists c,
    nth_error (msg_content msg) (List.length (msg_content msg) - 100) = Some c
    /\ previous_context self msg = Ok [c].
Proof.
  apply (proj2 (proj2 (X5_previous_context_cases
                         (set_content_count 2 Demo.role0)
                         (mkMessage Demo.long_text None)))).
  - simpl. lia.
  - vm_compute. reflexivity.
Defined.

Lemma X6_handle_directory_effects_witness :
  exists self',
    _handle_directory Demo.outline Demo.role0
    = Ok (mkMessage
            (titles_title Demo.outline ++ nl
             ++ directory_text (titles_directory Demo.outline)) None,
          self')
    /\ actions self'
       = chapter_tasks (language Demo.role0) (titles_directory Demo.outline)
    /\ rc_todo self' = None
    /\ main_title self' = titles_title Demo.outline
    /\ total_content self'
       = total_content Demo.role0 ++ py "# " ++ titles_title Demo.outline
    /\ rc_memory self' = rc_memory Demo.role0
    /\ content_count self' = content_count Demo.role0
    /\ rc_state self' = rc_state Demo.role0
    /\ history self'
       = history Demo.role0
         ++ [EvInitActions
               (chapter_tasks (language Demo.role0)
                  (titles_directory Demo.outline))].
Proof.
  apply (X6_handle_directory_effects Demo.outline Demo.role0). reflexivity.
Defined.

Lemma X7_think_fails_only_on_empty_list_witness :
  _think (set_actions [] Demo.role0) = Raise IndexError
  /\ exists self', _think Demo.role0 = Ok self'.
Proof.
  split.
  - apply (proj1 (X7_think_fails_only_on_empty_list
                    (set_actions [] Demo.role0))).
    split; reflexivity.
  - apply (proj2 (X7_think_fails_only_on_empty_list Demo.role0)).
    intros [_ E]. discriminate E.
Defined.

Lemma X8_think_moves_only_the_selection_witness :
  exists self',
    _think Demo.role0 = Ok self'
    /\ actions self' = actions Demo.role0
    /\ rc_memory self' = rc_memory Demo.role0
    /\ (rc_todo self' = None
        \/ exists a,
             rc_todo self' = Some a
             /\ 0 <= rc_state self'
             /\ nth_error (actions Demo.role0) (Z.to_nat (rc_state self'))
                = Some a).
Proof.
  destruct (_think Demo.role0) as [self'| |] eqn:E;
    [|vm_compute in E; discriminate | vm_compute in E; discriminate].
  exists self'. split; [reflexivity|].
  destruct (X8_think_moves_only_the_selection Demo.role0 self' E)
    as [H1 [H2 [_ [_ [_ [_ H7]]]]]].
  repeat split; assumption.
Defined.

Lemma X9_empty_memory_raises_witness :
  _react Demo.parser 1 (StoryAssistant_init (py "Chinese") Demo.profile0 [])
    Demo.world0
  = Raise IndexError.
Proof.
  apply (X9_empty_memory_raises Demo.parser 1 (py "Chinese") Demo.profile0
           Demo.world0).
  lia.
Defined.

Lemma X10_outline_failure_aborts_run_witness :
  let w := mkWorld [py "A"; py "not a dict"] [] in
  exists s1,
    _think Demo.role0 = Ok s1
    /\ rc_todo s1 = Some (WriteStoryStruct_init (py "Chinese"))
    /\ (forall fuel', _act Demo.parser fuel' s1 w = Raise MalformedOutlineError)
    /\ _react_loop Demo.parser 1 None Demo.role0 w
       = Raise MalformedOutlineError
    /\ _react_loop Demo.parser 10 None Demo.role0 w
       = Raise MalformedOutlineError
    /\ _react Demo.parser 10 Demo.role0 w = Raise MalformedOutlineError.
Proof.
  apply (X10_outline_failure_aborts_run Demo.parser 10 (py "Chinese")
           Demo.profile0 [] (mkMessage (py "game") None)
           (mkWorld [py "A"; py "not a dict"] []) MalformedOutlineError).
  - vm_compute. reflexivity.
  - lia.
Defined.

Lemma X11_empty_directory_raises_witness :
  _react (fun _ => Ok (mkTitles (py "T") [])) 2 Demo.role0 Demo.world0
  = Raise IndexError.
Proof.
  apply (X11_empty_directory_raises (fun _ => Ok (mkTitles (py "T") [])) 2
           (py "Chinese") Demo.profile0 [] (mkMessage (py "game") None)
           Demo.world0 Demo.world1 (mkTitles (py "T") [])).
  - vm_compute. reflexivity.
  - reflexivity.
  - lia.
Defined.

(** ** The retry loop, answer by answer *)

Section MoreRetry.

Context {L : Type} {G : Generator L}.
Variable extract_struct : str -> result Titles.

Lemma content_prompt_eq (topic language content : str) :
  CONTENT_PROMPT_format topic language content
  = Ok (content_prompt topic content).
Proof. apply CONTENT_PROMPT_format_eq. Qed.

(** A complex fill of a node with one child is one question. *)
Lemma fill_single_child (node c : ActionNode) (k ctx schema mode : str)
    (w : World L) :
  node_children node = [(k, c)] ->
  exists out node' c' w',
    fill node ctx schema mode (py "complex") w = (Some node', w')
    /\ node_content node' = out
    /\ node_children node' = [(k, c')]
    /\ node_instruction c' = node_instruction c
    /\ calls w' = calls w ++ [mkCall (node_instruction c) ctx out].
Proof.
  intros Hc. unfold fill.
  replace (str_eqb (py "complex") (py "simple")) with false by reflexivity.
  replace (str_eqb (py "complex") (py "complex")) with true by reflexivity.
  cbv zeta.
  change (node_children (set_context ctx node)) with (node_children node).
  rewrite Hc. cbn [fill_children]. unfold simple_fill.
  change (node_instruction (set_context ctx c)) with (node_instruction c).
  change (node_context (set_context ctx c)) with ctx.
  destruct (generate (llm w) (node_instruction c) ctx) as [out l'].
  eexists out, _, _, _. split; [reflexivity|].
  repeat split.
Qed.

Lemma removelast_cons2 {A : Type} (a b : A) (l : list A) :
  removelast (a :: b :: l) = a :: removelast (b :: l).
Proof. reflexivity. Qed.

(** The loop on a node with one child, entered with [n < 5]: the answers
    it got, in order. *)
Lemma WriteContent_loop_answers (language content topic k instr : str) :
  forall (fuel : nat) (n : Z) (resp : option str) (node c : ActionNode)
         (w : World L),
    0 <= n < 5 ->
    (Z.to_nat (5 - n) < fuel)%nat ->
    node_children node = [(k, c)] ->
    node_instruction c = instr ->
    exists outs node' w',
      WriteContent_loop fuel language content topic n resp node w
      = Ok (n + Z.of_nat (List.length outs), Some (kept outs), node', w')
      /\ outs <> []
      /\ n + Z.of_nat (List.length outs) <= 5
      /\ calls w'
         = calls w ++ map (mkCall instr (content_prompt topic content)) outs
      /\ Forall (fun o => accepts o = false) (removelast outs)
      /\ (accepts (kept outs) = true \/ n + Z.of_nat (List.length outs) = 5).
Proof.
  induction fuel as [|fuel IH]; intros n resp node c w Hn Hf Hc Hi; [lia|].
  rewrite WriteContent_loop_S.
  replace (n <? 5) with true by (symmetry; apply Z.ltb_lt; lia).
  rewrite content_prompt_eq. cbn [bind].
  destruct (fill_single_child node c k (content_prompt topic content)
              (py "raw") (py "auto") w Hc)
    as [out [node1 [c1 [w1 [Hfill [Hout [Hc1 [Hi1 Hcalls]]]]]]]].
  rewrite Hfill, Hout, Hi in *.
  destruct (accepts out) eqn:Acc.
  - exists [out], node1, w1. cbn [List.length kept last removelast map].
    replace (n + Z.of_nat 1) with (n + 1) by lia.
    repeat split; try assumption; try lia; try discriminate.
    + constructor.
    + now left.
  - destruct (Z.eq_dec (n + 1) 5) as [E5|N5].
    + destruct fuel as [|fuel]; [lia|]. rewrite WriteContent_loop_S.
      replace (n + 1 <? 5) with false by (symmetry; apply Z.ltb_ge; lia).
      exists [out], node1, w1. cbn [List.length kept last removelast map].
      replace (n + Z.of_nat 1) with (n + 1) by lia.
      repeat split; try assumption; try lia; try discriminate.
      constructor.
    + destruct (IH (n + 1) (Some out) node1 c1 w1)
        as [outs [node' [w' [Hloop [Hne [Hle [Hcl [Hrej Hlast]]]]]]]];
        [lia | lia | assumption | congruence |].
      exists (out :: outs), node', w'.
      destruct outs as [|o outs]; [contradiction|].
      change (kept (out :: o :: outs)) with (kept (o :: outs)).
      rewrite removelast_cons2.
      replace (n + Z.of_nat (List.length (out :: o :: outs)))
        with (n + 1 + Z.of_nat (List.length (o :: outs)))
        by (cbn [List.length]; lia).
      rewrite Hloop.
      repeat split; try assumption; try lia; try discriminate.
      * rewrite Hcl, Hcalls. now rewrite <- app_assoc.
      * constructor; assumption.
Qed.

(** X12: what a chapter's [run] does on a node with one child, answer by
    answer.  The generator is asked between one and five times, every time
    with the child's instruction and the same prompt; every answer but the
    last was sent back by the test of line 176; the last answer is kept,
    either because the test let it through or because it is the fifth;
    the result is the heading, a blank line and that answer. *)
Theorem X12_retry_loop_answer_by_answer :
  forall (fuel : nat) (language directory content topic k : str)
         (node c : ActionNode) (w : World L),
    (6 <= fuel)%nat ->
    node_children node = [(k, c)] ->
    exists outs w',
      WriteContent_run fuel language directory content node topic w
      = Ok (with_heading directory (kept outs), w')
      /\ retry_answers outs
      /\ calls w'
         = calls w
           ++ map (mkCall (node_instruction c) (content_prompt topic content))
                outs.
Proof.
  intros fuel language directory content topic k node c w Hf Hc.
  destruct (WriteContent_loop_answers language content topic k
              (node_instruction c) fuel 0 None node c w)
    as [outs [node' [w' [Hloop [Hne [Hle [Hcl [Hrej Hlast]]]]]]]];
    [lia | simpl; lia | assumption | reflexivity |].
  exists outs, w'. unfold WriteContent_run. rewrite Hloop.
  split; [reflexivity|]. split; [|exact Hcl].
  unfold retry_answers. repeat split; try assumption; try lia.
  destruct Hlast as [H|H]; [now left | right; lia].
Qed.

End MoreRetry.

Lemma X12_retry_loop_answer_by_answer_witness :
  let both := MARKER_FULFILL ++ MARKER_COMPLETE in
  exists outs w',
    WriteContent_run 6 (py "Chinese") (py "h") (py "s") CONTENT_WRITE_NODES
      (py "t") (mkWorld [both; py "fine"; py "unused"] [])
    = Ok (with_heading (py "h") (kept outs), w')
    /\ retry_answers outs
    /\ calls w'
       = [] ++ map (mkCall (node_instruction STORY_WRITE)
                      (content_prompt (py "t") (py "s"))) outs.
Proof.
  apply (X12_retry_loop_answer_by_answer 6 (py "Chinese") (py "h") (py "s")
           (py "t") (py "Story Write") CONTENT_WRITE_NODES STORY_WRITE
           (mkWorld [MARKER_FULFILL ++ MARKER_COMPLETE; py "fine"; py "unused"]
              [])).
  - lia.
  - reflexivity.
Defined.

(** ** A whole run, question by question *)

Section MoreWholeRun.

Context {L : Type} {G : Generator L}.
Variable extract_struct : str -> result Titles.

Lemma act_chapter_answers (fuel : nat) (self : StoryAssistant) (w : World L)
    (lang dir content : str) (mem : list Message) (msg : Message) :
  rc_todo self = Some (WriteContent_init lang dir content) ->
  rc_memory self = mem ++ [msg] ->
  (6 <= fuel)%nat ->
  exists outs w',
    _act extract_struct fuel self w
    = Ok (mkMessage (with_heading dir (kept outs)) (Some (profile self)),
          set_rc_memory
            (rc_memory self
             ++ [mkMessage (with_heading dir (kept outs)) (Some (profile self))])
            (set_total_content
               (assemble (total_content self) (with_heading dir (kept outs)))
               (record
                  (EvRun (WriteContent_init lang dir content)
                     (if content_count self + 1 >? 1
                      then tail_context (msg_content msg)
                      else main_title self))
                  (set_content_count (content_count self + 1) self))),
          w')
    /\ retry_answers outs
    /\ calls w'
       = calls w
         ++ map (mkCall STORY_WRITE_INSTRUCTION
                   (content_prompt
                      (if content_count self + 1 >? 1
                       then tail_context (msg_content msg)
                       else main_title self) content)) outs.
Proof.
  intros Htodo Hmem Hf.
  set (arg := if content_count self + 1 >? 1
              then tail_context (msg_content msg) else main_title self).
  destruct (WriteContent_loop_answers lang content arg (py "Story Write")
              STORY_WRITE_INSTRUCTION fuel 0 None CONTENT_WRITE_NODES
              STORY_WRITE w)
    as [outs [node' [w' [Hloop [Hne [Hle [Hcl [Hrej Hlast]]]]]]]];
    [lia | simpl; lia | reflexivity | reflexivity |].
  exists outs, w'. split; [|split].
  - unfold _act. rewrite Htodo. unfold WriteContent_init.
    cbv beta iota zeta.
    change (rc_memory (set_content_count (content_count self + 1) self))
      with (rc_memory self).
    rewrite Hmem, memory_get_last. cbn [list_first bind].
    rewrite previous_context_spec. cbn [bind].
    change (content_count (set_content_count (content_count self + 1) self))
      with (content_count self + 1).
    change (main_title (set_content_count (content_count self + 1) self))
      with (main_title self).
    fold arg. unfold todo_run, WriteContent_run.
    rewrite Hloop. cbn [bind]. unfold memory_add.
    rewrite <- Hmem. reflexivity.
  - unfold retry_answers. repeat split; try assumption; try lia.
    destruct Hlast as [H|H]; [now left | right; lia].
  - exact Hcl.
Qed.

Lemma chapter_calls_cons (k v first : str) (d : list (str * str))
    (outs : list str) (answers : list (list str)) :
  chapter_calls ((k, v) :: d) first (outs :: answers)
  = map (mkCall STORY_WRITE_INSTRUCTION (content_prompt first v)) outs
    ++ chapter_calls d (tail_context (with_heading k (kept outs))) answers.
Proof. reflexivity. Qed.

(** The chapter phase of the loop of [_react], with the answers every
    retry loop got and the state it ends in. *)
Lemma chapters_loop_answers (lang : str) (rest : list (str * str)) :
  forall (done : list Action) (self : StoryAssistant) (w : World L)
         (msg : option Message) (mem : list Message) (prev : Message)
         (fuel : nat),
    actions self = done ++ chapter_tasks lang rest ->
    (rc_todo self = None /\ done = [] /\ rest <> [])
    \/ (rc_todo self <> None
        /\ rc_state self = Z.of_nat (List.length done) - 1 /\ done <> []) ->
    rc_memory self = mem ++ [prev] ->
    total_content self <> [] ->
    0 <= content_count self ->
    (List.length rest + 7 <= fuel)%nat ->
    exists answers self' w',
      _react_loop extract_struct fuel msg self w
      = Ok (last (map Some (entries (profile self)
                              (chapter_outputs rest (map kept answers))))
              msg,
            self', w')
      /\ List.length answers = List.length rest
      /\ Forall retry_answers answers
      /\ calls w'
         = calls w
           ++ chapter_calls rest
                (if content_count self + 1 >? 1
                 then tail_context (msg_content prev)
                 else main_title self)
                answers
      /\ rc_memory self'
         = rc_memory self
           ++ entries (profile self) (chapter_outputs rest (map kept answers))
      /\ history self'
         = history self
           ++ run_events (chapter_tasks lang rest)
                (chapter_topics
                   (if content_count self + 1 >? 1
                    then tail_context (msg_content prev)
                    else main_title self)
                   (chapter_outputs rest (map kept answers)))
      /\ total_content self'
         = total_content self
           ++ List.concat
                (map (fun o => nl ++ nl ++ nl ++ o)
                   (chapter_outputs rest (map kept answers)))
      /\ main_title self' = main_title self
      /\ rc_todo self' = None
      /\ actions self' = actions self
      /\ content_count self'
         = content_count self + Z.of_nat (List.length rest)
      /\ topic self' = topic self.
Proof.
  induction rest as [|[k v] rest IH];
    intros done self w msg mem prev fuel Hact Hsel Hmem Htc Hcc Hf;
    (destruct fuel as [|fuel]; [lia|]); rewrite react_loop_S.
  - destruct Hsel as [[_ [_ NE]]|[Htodo [Hst Hdone]]]; [contradiction|].
    simpl in Hact. rewrite app_nil_r in Hact.
    rewrite think_finish by (rewrite ?Hact; assumption).
    cbn [bind]. role_simpl.
    exists [], (set_rc_todo None (set_states (actions self) self)), w.
    role_simpl. simpl. rewrite !app_nil_r.
    repeat split; try constructor. lia.
  - change (chapter_tasks lang ((k, v) :: rest))
      with (WriteContent_init lang k v :: chapter_tasks lang rest) in *.
    rewrite (think_select self done (chapter_tasks lang rest)
               (WriteContent_init lang k v) Hact)
      by (destruct Hsel as [[? [? _]]|[? [? _]]]; [left | right]; now split).
    cbn [bind]. role_simpl.
    set (self1 := set_rc_todo (Some (WriteContent_init lang k v))
                    (set_rc_state (Z.of_nat (List.length done))
                       (set_states (actions self) self))).
    destruct (act_chapter_answers fuel self1 w lang k v mem prev)
      as [outs [w1 [Hstep [Hgood Hc1]]]];
      [reflexivity | exact Hmem | lia |].
    rewrite Hstep. cbn [bind].
    subst self1. role_simpl.
    match goal with
    | |- context [_react_loop _ fuel (Some ?m) ?s2 w1] =>
        destruct (IH (done ++ [WriteContent_init lang k v]) s2 w1 (Some m)
                    (mem ++ [prev]) m fuel)
          as [answers [self' [w' [Hloop [Hlen [Hall [Hc [Hm [Hh [Ht [Hmt
               [Htd [Ha [Hn Htp]]]]]]]]]]]]]]
    end.
    + role_simpl. rewrite Hact, <- app_assoc. reflexivity.
    + right. role_simpl. repeat split.
      * discriminate.
      * rewrite length_app. simpl. lia.
      * destruct done; discriminate.
    + role_simpl. now rewrite Hmem.
    + role_simpl. rewrite assemble_nonempty by assumption.
      destruct (total_content self); [contradiction | discriminate].
    + role_simpl. lia.
    + simpl in Hf. lia.
    + role_simpl.
      replace (content_count self + 1 + 1 >? 1) with true in *
        by (symmetry; apply Z.gtb_lt; lia).
      exists (outs :: answers), self', w'.
      cbn [map]. rewrite Hloop, !chapter_outputs_cons, !entries_cons.
      repeat split.
      * cbn [map]. now rewrite last_cons_default.
      * simpl. now rewrite Hlen.
      * constructor; assumption.
      * rewrite Hc, Hc1, chapter_calls_cons. now rewrite <- app_assoc.
      * rewrite Hm. now rewrite <- app_assoc.
      * rewrite Hh, chapter_topics_cons, run_events_cons.
        now rewrite <- app_assoc.
      * rewrite Ht, assemble_nonempty by assumption.
        cbn [map List.concat]. now rewrite <- !app_assoc.
      * exact Hmt.
      * exact Htd.
      * exact Ha.
      * rewrite Hn. cbn [List.length]. lia.
      * exact Htp.
Qed.

(** The loop of a whole run, as in [react_spec], with every question
    asked and the state the role is left in. *)
Lemma react_answers (lang prof : str) (mem : list Message)
    (msg0 : Message) (w w1 : World L) (titles : Titles) (fuel : nat) :
  WriteStoryStruct_run extract_struct lang OUTLINE_WRITE_NODES
    (msg_content msg0) w = Ok (titles, w1) ->
  titles_directory titles <> [] ->
  unique_keys (titles_directory titles) = true ->
  (List.length (titles_directory titles) + 8 <= fuel)%nat ->
  exists answers m self1 w',
    _react_loop extract_struct fuel None
      (StoryAssistant_init lang prof (mem ++ [msg0])) w
    = Ok (Some m, self1, w')
    /\ List.length answers = List.length (titles_directory titles)
    /\ Forall retry_answers answers
    /\ calls w'
       = calls w1
         ++ chapter_calls (titles_directory titles) (titles_title titles)
              answers
    /\ m = last (entries prof
                   (chapter_outputs (titles_directory titles)
                      (map kept answers)))
             (mkMessage
                (titles_title titles ++ nl
                 ++ directory_text (titles_directory titles)) None)
    /\ rc_memory self1
       = (mem ++ [msg0])
         ++ entries prof
              (chapter_outputs (titles_directory titles) (map kept answers))
    /\ total_content self1
       = py "# " ++ titles_title titles
         ++ List.concat
              (map (fun o => nl ++ nl ++ nl ++ o)
                 (chapter_outputs (titles_directory titles)
                    (map kept answers)))
    /\ main_title self1 = titles_title titles
    /\ rc_todo self1 = None
    /\ actions self1 = chapter_tasks lang (titles_directory titles)
    /\ content_count self1
       = Z.of_nat (List.length (titles_directory titles))
    /\ topic self1 = msg_content msg0.
Proof.
  intros Hrun NE U Hf.
  destruct fuel as [|fuel]; [lia|].
  rewrite react_loop_S.
  set (self0 := StoryAssistant_init lang prof (mem ++ [msg0])).
  rewrite (think_select self0 [] [] (WriteStoryStruct_init lang))
    by (try reflexivity; left; now split).
  cbn [bind]. role_simpl.
  rewrite (act_outline_spec extract_struct fuel _ w w1 lang
             OUTLINE_WRITE_NODES mem msg0 titles)
    by (try reflexivity; assumption).
  cbn [bind].
  match goal with
  | |- context [_react_loop _ fuel (Some ?m) ?s2 w1] =>
      destruct (chapters_loop_answers lang (titles_directory titles) [] s2 w1
                  (Some m) mem msg0 fuel)
        as [answers [self' [w' [Hloop [Hlen [Hall [Hc [Hm [Hh [Ht [Hmt
             [Htd [Ha [Hn Htp]]]]]]]]]]]]]];
      [reflexivity
      | left; repeat split; assumption
      | reflexivity
      | subst self0; unfold StoryAssistant_init; role_simpl;
        change (py "") with (@nil char); change (py "# ") with [35%N; 32%N];
        discriminate
      | subst self0; unfold StoryAssistant_init; role_simpl; lia
      | lia
      | ]
  end.
  rewrite Hloop.
  subst self0. unfold StoryAssistant_init in *. role_simpl.
  change (0 + 1 >? 1) with false in Hc, Hh. cbv iota in Hc, Hh.
  change (py "" ++ py "# " ++ titles_title titles)
    with (py "# " ++ titles_title titles) in Ht.
  rewrite last_map_Some.
  eexists answers, _, self', w'. split; [reflexivity|].
  repeat split; try assumption; lia.
Qed.

Lemma last_chapter_entry (prof : str) (d : list (str * str)) :
  forall (bodies : list str) (dflt : Message) (dd : str * str) (db : str),
    List.length bodies = List.length d ->
    d <> [] ->
    last (entries prof (chapter_outputs d bodies)) dflt
    = mkMessage (with_heading (fst (last d dd)) (last bodies db)) (Some prof).
Proof.
  induction d as [|[k v] d IH]; intros bodies dflt dd db Hlen NE;
    [contradiction|].
  destruct bodies as [|b bodies]; [discriminate|].
  rewrite chapter_outputs_cons, entries_cons, !last_cons_default.
  destruct d as [|kv d].
  - destruct bodies; [reflexivity | discriminate].
  - apply IH; [simpl in *; lia | discriminate].
Qed.

Lemma combine_map_r {A B C : Type} (f : B -> C) (l : list A) :
  forall l' : list B,
    combine l (map f l') = map (fun p => (fst p, f (snd p))) (combine l l').
Proof.
  induction l as [|a l IH]; intros [|b l']; simpl; try reflexivity.
  now rewrite IH.
Qed.

Lemma last_map_kept (answers : list (list str)) (d : list str) :
  last (map kept answers) (kept d) = kept (last answers d).
Proof.
  revert d. induction answers as [|a answers IH]; intros d; [reflexivity|].
  cbn [map]. now rewrite !last_cons_default.
Qed.

Lemma chapter_calls_length (d : list (str * str)) :
  forall (first : str) (answers : list (list str)),
    List.length answers = List.length d ->
    Forall retry_answers answers ->
    (List.length d <= List.length (chapter_calls d first answers)
     <= 5 * List.length d)%nat.
Proof.
  induction d as [|[k v] d IH]; intros first answers Hlen Hall.
  - simpl. lia.
  - destruct answers as [|outs answers]; [discriminate|].
    inversion Hall as [|? ? [Hne [Hle _]] Hall']; subst.
    rewrite chapter_calls_cons, length_app, length_map.
    specialize (IH (tail_context (with_heading k (kept outs))) answers).
    assert (1 <= List.length outs)%nat by (destruct outs; [contradiction | simpl; lia]).
    simpl in Hlen. cbn [List.length].
    destruct IH as [IH1 IH2]; [lia | assumption |]. lia.
Qed.

(** X13: the document of a run.  When the loop of a run over a directory
    with the headings h1, h2, ... ends, the document is the line "# title"
    followed, for every chapter in order, by three newlines, "## heading",
    a blank line and the text kept for the chapter, which is the last of
    the answers the generator gave to that chapter's questions.  The run
    then encodes this document and writes the bytes under the name
    "title.md"; when the document cannot be encoded the run raises
    instead. *)
Theorem X13_document_assembly (lang prof : str) (mem : list Message)
    (msg0 : Message) (w w1 : World L) (titles : Titles) (fuel : nat) :
  WriteStoryStruct_run extract_struct lang OUTLINE_WRITE_NODES
    (msg_content msg0) w = Ok (titles, w1) ->
  titles_directory titles <> [] ->
  unique_keys (titles_directory titles) = true ->
  (List.length (titles_directory titles) + 8 <= fuel)%nat ->
  exists answers m self1 w',
    _react_loop extract_struct fuel None
      (StoryAssistant_init lang prof (mem ++ [msg0])) w
    = Ok (Some m, self1, w')
    /\ List.length answers = List.length (titles_directory titles)
    /\ Forall retry_answers answers
    /\ calls w'
       = calls w1
         ++ chapter_calls (titles_directory titles) (titles_title titles)
              answers
    /\ total_content self1
       = py "# " ++ titles_title titles
         ++ List.concat
              (map (fun p =>
                      nl ++ nl ++ nl
                      ++ py "## " ++ fst (fst p) ++ nl ++ nl ++ kept (snd p))
                 (combine (titles_directory titles) answers))
    /\ _react extract_struct fuel
         (StoryAssistant_init lang prof (mem ++ [msg0])) w
       = (bytes <- utf8_encode (total_content self1) ;;
          Ok (m,
              record (EvWrite (titles_title titles ++ py ".md") bytes) self1,
              w')).
Proof.
  intros Hrun NE U Hf.
  destruct (react_answers lang prof mem msg0 w w1 titles fuel Hrun NE U Hf)
    as [answers [m [self1 [w' [Hr [Hlen [Hall [Hc [_ [_ [Ht [Hmt _]]]]]]]]]]]].
  exists answers, m, self1, w'.
  split; [exact Hr|]. split; [exact Hlen|]. split; [exact Hall|].
  split; [exact Hc|]. split.
  - rewrite Ht. unfold chapter_outputs, with_heading.
    rewrite combine_map_r, !map_map. reflexivity.
  - exact (react_of_loop extract_struct fuel _ self1 w w' m _ Hr Hmt).
Qed.

(** X14: what a run returns and how it leaves the role.  The message the
    loop ends with, which the run returns, is the formatted output of the
    last chapter of the directory, heading, blank line and the last answer
    the generator gave for that chapter, with the role's profile as its
    role; it is also the last entry of the memory.  Nothing is selected
    then, the action list is the list of chapter tasks, the chapter
    counter is the number of chapters, and [topic] is the request the
    outline was made from. *)
Theorem X14_run_result_and_final_state (lang prof : str) (mem : list Message)
    (msg0 : Message) (w w1 : World L) (titles : Titles) (fuel : nat) :
  WriteStoryStruct_run extract_struct lang OUTLINE_WRITE_NODES
    (msg_content msg0) w = Ok (titles, w1) ->
  titles_directory titles <> [] ->
  unique_keys (titles_directory titles) = true ->
  (List.length (titles_directory titles) + 8 <= fuel)%nat ->
  exists answers m self1 w',
    _react_loop extract_struct fuel None
      (StoryAssistant_init lang prof (mem ++ [msg0])) w
    = Ok (Some m, self1, w')
    /\ List.length answers = List.length (titles_directory titles)
    /\ Forall retry_answers answers
    /\ calls w'
       = calls w1
         ++ chapter_calls (titles_directory titles) (titles_title titles)
              answers
    /\ m = mkMessage
             (with_heading (fst (last (titles_directory titles) ([], [])))
                (kept (last answers [])))
             (Some prof)
    /\ last (rc_memory self1) msg0 = m
    /\ rc_todo self1 = None
    /\ actions self1 = chapter_tasks lang (titles_directory titles)
    /\ content_count self1
       = Z.of_nat (List.length (titles_directory titles))
    /\ topic self1 = msg_content msg0
    /\ main_title self1 = titles_title titles
    /\ _react extract_struct fuel
         (StoryAssistant_init lang prof (mem ++ [msg0])) w
       = (bytes <- utf8_encode (total_content self1) ;;
          Ok (m,
              record (EvWrite (titles_title titles ++ py ".md") bytes) self1,
              w')).
Proof.
  intros Hrun NE U Hf.
  destruct (react_answers lang prof mem msg0 w w1 titles fuel Hrun NE U Hf)
    as [answers [m [self1 [w' [Hr [Hlen [Hall [Hc [Hm [Hmem [_ [Hmt [Htd
         [Ha [Hn Htp]]]]]]]]]]]]]]].
  assert (Hl : List.length (map kept answers)
               = List.length (titles_directory titles))
    by (now rewrite length_map).
  rewrite (last_chapter_entry prof (titles_directory titles) (map kept answers)
             _ ([], []) (kept []) Hl NE), last_map_kept in Hm.
  exists answers, m, self1, w'.
  split; [exact Hr|]. split; [exact Hlen|]. split; [exact Hall|].
  split; [exact Hc|]. split; [exact Hm|].
  split; [|repeat split; try assumption;
           exact (react_of_loop extract_struct fuel _ self1 w w' m _ Hr Hmt)].
  rewrite Hmem, Hm.
  assert (Hne : entries prof (chapter_outputs (titles_directory titles)
                                (map kept answers)) <> []).
  { destruct (titles_directory titles) as [|[k0 v0] d]; [contradiction|].
    destruct (map kept answers); discriminate. }
  destruct (exists_last Hne) as [es [e Ee]].
  rewrite Ee, app_assoc, last_last.
  rewrite <- last_map_kept.
  rewrite <- (last_chapter_entry prof (titles_directory titles)
                (map kept answers) e ([], []) (kept []) Hl NE).
  rewrite Ee. now rewrite last_last.
Qed.

(** X15: every question a run asks, in order.  First the two questions of
    the outline, the directory being parsed from the second answer; then,
    chapter by chapter, the questions of the retry loop, all with the
    story instruction and with the prompt made of the chapter's own
    summary and of the context handed on from the chapter before, the
    title for the first.  Nothing else is asked: the loop ends with this
    log, and encoding and writing the document asks nothing. *)
Theorem X15_question_log (lang prof : str) (mem : list Message)
    (msg0 : Message) (w w1 : World L) (titles : Titles) (fuel : nat) :
  WriteStoryStruct_run extract_struct lang OUTLINE_WRITE_NODES
    (msg_content msg0) w = Ok (titles, w1) ->
  titles_directory titles <> [] ->
  unique_keys (titles_directory titles) = true ->
  (List.length (titles_directory titles) + 8 <= fuel)%nat ->
  exists prompt a b answers m self1 w',
    _react_loop extract_struct fuel None
      (StoryAssistant_init lang prof (mem ++ [msg0])) w
    = Ok (Some m, self1, w')
    /\ format DIRECTORY_PROMPT
         [(py "topic", msg_content msg0); (py "language", lang)]
       = Ok prompt
    /\ extract_struct b = Ok titles
    /\ List.length answers = List.length (titles_directory titles)
    /\ Forall retry_answers answers
    /\ calls w'
       = calls w
         ++ [mkCall STRUCT_WRITE_INSTRUCTION prompt a;
             mkCall DIRECTORY_WRITE_INSTRUCTION a b]
         ++ chapter_calls (titles_directory titles) (titles_title titles)
              answers
    /\ _react extract_struct fuel
         (StoryAssistant_init lang prof (mem ++ [msg0])) w
       = (bytes <- utf8_encode (total_content self1) ;;
          Ok (m,
              record (EvWrite (titles_title titles ++ py ".md") bytes) self1,
              w')).
Proof.
  intros Hrun NE U Hf.
  destruct (react_answers lang prof mem msg0 w w1 titles fuel Hrun NE U Hf)
    as [answers [m [self1 [w' [Hr [Hlen [Hall [Hc [_ [_ [_ [Hmt _]]]]]]]]]]]].
  pose proof (react_of_loop extract_struct fuel _ self1 w w' m _ Hr Hmt)
    as Hreact.
  destruct (outline_run_spec extract_struct lang (msg_content msg0) w)
    as [prompt [a [b [w2 [Hp [Hc2 Hr2]]]]]].
  rewrite Hr2 in Hrun.
  destruct (extract_struct b) as [t| |] eqn:Eb; cbn [bind] in Hrun;
    try discriminate.
  injection Hrun as -> ->.
  exists prompt, a, b, answers, m, self1, w'.
  repeat split; try assumption.
  rewrite Hc, Hc2. now rewrite <- app_assoc.
Qed.

(** X16: the cost of a run.  Over a directory of N entries the generator
    has been asked at least N + 2 and at most 5 N + 2 times when the loop
    ends; encoding and writing the document asks nothing more. *)
Theorem X16_question_count (lang prof : str) (mem : list Message)
    (msg0 : Message) (w w1 : World L) (titles : Titles) (fuel : nat) :
  WriteStoryStruct_run extract_struct lang OUTLINE_WRITE_NODES
    (msg_content msg0) w = Ok (titles, w1) ->
  titles_directory titles <> [] ->
  unique_keys (titles_directory titles) = true ->
  (List.length (titles_directory titles) + 8 <= fuel)%nat ->
  exists m self1 w',
    _react_loop extract_struct fuel None
      (StoryAssistant_init lang prof (mem ++ [msg0])) w
    = Ok (Some m, self1, w')
    /\ (List.length (calls w) + List.length (titles_directory titles) + 2
        <= List.length (calls w')
        <= List.length (calls w) + 5 * List.length (titles_directory titles)
           + 2)%nat
    /\ _react extract_struct fuel
         (StoryAssistant_init lang prof (mem ++ [msg0])) w
       = (bytes <- utf8_encode (total_content self1) ;;
          Ok (m,
              record (EvWrite (titles_title titles ++ py ".md") bytes) self1,
              w')).
Proof.
  intros Hrun NE U Hf.
  destruct (react_answers lang prof mem msg0 w w1 titles fuel Hrun NE U Hf)
    as [answers [m [self1 [w' [Hr [Hlen [Hall [Hc [_ [_ [_ [Hmt _]]]]]]]]]]]].
  pose proof (react_of_loop extract_struct fuel _ self1 w w' m _ Hr Hmt)
    as Hreact.
  destruct (outline_run_spec extract_struct lang (msg_content msg0) w)
    as [prompt [a [b [w2 [Hp [Hc2 Hr2]]]]]].
  rewrite Hr2 in Hrun.
  destruct (extract_struct b) as [t| |] eqn:Eb; cbn [bind] in Hrun;
    try discriminate.
  injection Hrun as -> ->.
  exists m, self1, w'. split; [exact Hr|]. split; [|exact Hreact].
  rewrite Hc, Hc2, !length_app. cbn [List.length].
  pose proof (chapter_calls_length (titles_directory titles)
                (titles_title titles) answers Hlen Hall).
  lia.
Qed.

End MoreWholeRun.

Lemma X13_document_assembly_witness :
  exists answers m self1 w',
    _react_loop Demo.parser 10 None Demo.role0 Demo.world0
    = Ok (Some m, self1, w')
    /\ List.length answers = List.length (titles_directory Demo.outline)
    /\ Forall retry_answers answers
    /\ calls w'
       = calls Demo.world1
         ++ chapter_calls (titles_directory Demo.outline)
              (titles_title Demo.outline) answers
    /\ total_content self1
       = py "# " ++ titles_title Demo.outline
         ++ List.concat
              (map (fun p =>
                      nl ++ nl ++ nl
                      ++ py "## " ++ fst (fst p) ++ nl ++ nl ++ kept (snd p))
                 (combine (titles_directory Demo.outline) answers))
    /\ _react Demo.parser 10 Demo.role0 Demo.world0
       = (bytes <- utf8_encode (total_content self1) ;;
          Ok (m,
              record (EvWrite (titles_title Demo.outline ++ py ".md") bytes)
                self1,
              w')).
Proof.
  apply (X13_document_assembly Demo.parser (py "Chinese") Demo.profile0 []
           (mkMessage (py "game") None) Demo.world0 Demo.world1
           Demo.outline 10).
  - exact Demo_outline_run.
  - discriminate.
  - reflexivity.
  - simpl. lia.
Defined.

Lemma X14_run_result_and_final_state_witness :
  exists answers m self1 w',
    _react_loop Demo.parser 10 None Demo.role0 Demo.world0
    = Ok (Some m, self1, w')
    /\ List.length answers = List.length (titles_directory Demo.outline)
    /\ Forall retry_answers answers
    /\ calls w'
       = calls Demo.world1
         ++ chapter_calls (titles_directory Demo.outline)
              (titles_title Demo.outline) answers
    /\ m = mkMessage
             (with_heading
                (fst (last (titles_directory Demo.outline) ([], [])))
                (kept (last answers [])))
             (Some Demo.profile0)
    /\ last (rc_memory self1) (mkMessage (py "game") None) = m
    /\ rc_todo self1 = None
    /\ actions self1
       = chapter_tasks (py "Chinese") (titles_directory Demo.outline)
    /\ content_count self1
       = Z.of_nat (List.length (titles_directory Demo.outline))
    /\ topic self1 = py "game"
    /\ main_title self1 = titles_title Demo.outline
    /\ _react Demo.parser 10 Demo.role0 Demo.world0
       = (bytes <- utf8_encode (total_content self1) ;;
          Ok (m,
              record (EvWrite (titles_title Demo.outline ++ py ".md") bytes)
                self1,
              w')).
Proof.
  apply (X14_run_result_and_final_state Demo.parser (py "Chinese") Demo.profile0 []
           (mkMessage (py "game") None) Demo.world0 Demo.world1
           Demo.outline 10).
  - exact Demo_outline_run.
  - discriminate.
  - reflexivity.
  - simpl. lia.
Defined.

Lemma X15_question_log_witness :
  exists prompt a b answers m self1 w',
    _react_loop Demo.parser 10 None Demo.role0 Demo.world0
    = Ok (Some m, self1, w')
    /\ format DIRECTORY_PROMPT
         [(py "topic", py "game"); (py "language", py "Chinese")]
       = Ok prompt
    /\ Demo.parser b = Ok Demo.outline
    /\ List.length answers = List.length (titles_directory Demo.outline)
    /\ Forall retry_answers answers
    /\ calls w'
       = calls Demo.world0
         ++ [mkCall STRUCT_WRITE_INSTRUCTION prompt a;
             mkCall DIRECTORY_WRITE_INSTRUCTION a b]
         ++ chapter_calls (titles_directory Demo.outline)
              (titles_title Demo.outline) answers
    /\ _react Demo.parser 10 Demo.role0 Demo.world0
       = (bytes <- utf8_encode (total_content self1) ;;
          Ok (m,
              record (EvWrite (titles_title Demo.outline ++ py ".md") bytes)
                self1,
              w')).
Proof.
  apply (X15_question_log Demo.parser (py "Chinese") Demo.profile0 []
           (mkMessage (py "game") None) Demo.world0 Demo.world1
           Demo.outline 10).
  - exact Demo_outline_run.
  - discriminate.
  - reflexivity.
  - simpl. lia.
Defined.

Lemma X16_question_count_witness :
  exists m self1 w',
    _react_loop Demo.parser 10 None Demo.role0 Demo.world0
    = Ok (Some m, self1, w')
    /\ (List.length (calls Demo.world0)
        + List.length (titles_directory Demo.outline) + 2
        <= List.length (calls w')
        <= List.length (calls Demo.world0)
           + 5 * List.length (titles_directory Demo.outline) + 2)%nat
    /\ _react Demo.parser 10 Demo.role0 Demo.world0
       = (bytes <- utf8_encode (total_content self1) ;;
          Ok (m,
              record (EvWrite (titles_title Demo.outline ++ py ".md") bytes)
                self1,
              w')).
Proof.
  apply (X16_question_count Demo.parser (py "Chinese") Demo.profile0 []
           (mkMessage (py "game") None) Demo.world0 Demo.world1
           Demo.outline 10).
  - exact Demo_outline_run.
  - discriminate.
  - reflexivity.
  - simpl. lia.
Defined.

(** X17: building the prompt of a chapter never raises, whatever the
    previous context and the summary are, braces included: they are put
    into the fixed text as they are, the summary between double quotes,
    and are not read as fields again. *)
Theorem X17_chapter_prompt_total :
  forall topic language content : str,
    CONTENT_PROMPT_format topic language content
    = Ok (nl ++ py "        您现在是短篇小说领域经验丰富的小说作家。请以引人入胜的风格，深入细致地按照故事概况"
          ++ dq ++ content ++ dq
          ++ py "写出故事内容，注意与上一章故事内容的衔接。" ++ nl
          ++ py "        上一章故事内容为" ++ topic ++ py "。" ++ nl
          ++ py "        ").
Proof. exact CONTENT_PROMPT_format_eq. Qed.

(** ** The bytes of the document *)

Lemma N_forall_below (P : N -> bool) (n : nat) :
  forallb P (map N.of_nat (seq 0 n)) = true ->
  forall x : N, (x < N.of_nat n)%N -> P x = true.
Proof.
  intros H x Hx. rewrite forallb_forall in H. apply H.
  apply in_map_iff. exists (N.to_nat x). split; [lia|].
  apply in_seq. lia.
Qed.

Lemma land_lead2 (x : N) : (x < 32)%N -> N.land (192 + x) 31 = x.
Proof.
  intros H. apply N.eqb_eq.
  apply (N_forall_below (fun x => N.land (192 + x) 31 =? x)%N 32);
    [vm_compute; reflexivity | exact H].
Qed.

Lemma land_lead3 (x : N) : (x < 16)%N -> N.land (224 + x) 15 = x.
Proof.
  intros H. apply N.eqb_eq.
  apply (N_forall_below (fun x => N.land (224 + x) 15 =? x)%N 16);
    [vm_compute; reflexivity | exact H].
Qed.

Lemma land_lead4 (x : N) : (x < 8)%N -> N.land (240 + x) 7 = x.
Proof.
  intros H. apply N.eqb_eq.
  apply (N_forall_below (fun x => N.land (240 + x) 7 =? x)%N 8);
    [vm_compute; reflexivity | exact H].
Qed.

Lemma land_cont (y : N) : (y < 64)%N -> N.land (128 + y) 63 = y.
Proof.
  intros H. apply N.eqb_eq.
  apply (N_forall_below (fun y => N.land (128 + y) 63 =? y)%N 64);
    [vm_compute; reflexivity | exact H].
Qed.

Lemma utf8_decode_cons (b0 : N) (r0 : list N) :
  utf8_decode (b0 :: r0) =
  if (b0 <? 128)%N then b0 :: utf8_decode r0
  else if (b0 <? 224)%N then
    match r0 with
    | b1 :: r1 => (N.land b0 31 * 64 + N.land b1 63)%N :: utf8_decode r1
    | [] => []
    end
  else if (b0 <? 240)%N then
    match r0 with
    | b1 :: b2 :: r2 =>
        (N.land b0 15 * 4096 + N.land b1 63 * 64 + N.land b2 63)%N
          :: utf8_decode r2
    | _ => []
    end
  else
    match r0 with
    | b1 :: b2 :: b3 :: r3 =>
        (N.land b0 7 * 262144 + N.land b1 63 * 4096
         + N.land b2 63 * 64 + N.land b3 63)%N :: utf8_decode r3
    | _ => []
    end.
Proof. reflexivity. Qed.

Lemma Ok_inj {A : Type} (a b : A) : Ok a = Ok b -> a = b.
Proof. congruence. Qed.

Lemma utf8_char_roundtrip (c : char) (b rest : list N) :
  utf8_encode_char c = Ok b ->
  utf8_decode (b ++ rest) = c :: utf8_decode rest.
Proof.
  unfold utf8_encode_char.
  destruct (c <? 128)%N eqn:E1.
  { intros H. apply Ok_inj in H. subst b. cbn [app]. rewrite utf8_decode_cons.
    now rewrite E1. }
  apply N.ltb_ge in E1.
  pose proof (N.div_mod c 64 ltac:(lia)) as D64.
  pose proof (N.mod_lt c 64 ltac:(lia)) as M64.
  destruct (c <? 2048)%N eqn:E2.
  { apply N.ltb_lt in E2. intros H. apply Ok_inj in H. subst b. cbn [app].
    assert (c / 64 < 32)%N by (apply N.Div0.div_lt_upper_bound; lia).
    rewrite utf8_decode_cons.
    replace (192 + c / 64 <? 128)%N with false
      by (symmetry; apply N.ltb_ge; lia).
    replace (192 + c / 64 <? 224)%N with true
      by (symmetry; apply N.ltb_lt; lia).
    rewrite land_lead2, land_cont by assumption. f_equal. lia. }
  apply N.ltb_ge in E2.
  pose proof (N.div_mod (c / 64) 64 ltac:(lia)) as D4096.
  pose proof (N.mod_lt (c / 64) 64 ltac:(lia)) as M4096.
  rewrite N.Div0.div_div in D4096. change (64 * 64)%N with 4096%N in D4096.
  destruct (c <? 65536)%N eqn:E3.
  { apply N.ltb_lt in E3.
    destruct ((55296 <=? c)%N && (c <? 57344)%N); [discriminate|].
    intros H. apply Ok_inj in H. subst b. cbn [app].
    assert (c / 4096 < 16)%N by (apply N.Div0.div_lt_upper_bound; lia).
    rewrite utf8_decode_cons.
    replace (224 + c / 4096 <? 128)%N with false
      by (symmetry; apply N.ltb_ge; lia).
    replace (224 + c / 4096 <? 224)%N with false
      by (symmetry; apply N.ltb_ge; lia).
    replace (224 + c / 4096 <? 240)%N with true
      by (symmetry; apply N.ltb_lt; lia).
    rewrite land_lead3, !land_cont by assumption. f_equal. lia. }
  apply N.ltb_ge in E3.
  pose proof (N.div_mod (c / 4096) 64 ltac:(lia)) as D262144.
  pose proof (N.mod_lt (c / 4096) 64 ltac:(lia)) as M262144.
  rewrite N.Div0.div_div in D262144.
  change (4096 * 64)%N with 262144%N in D262144.
  destruct (c <? 1114112)%N eqn:E4; [|discriminate].
  apply N.ltb_lt in E4. intros H. apply Ok_inj in H. subst b. cbn [app].
  assert (c / 262144 < 8)%N by (apply N.Div0.div_lt_upper_bound; lia).
  rewrite utf8_decode_cons.
  replace (240 + c / 262144 <? 128)%N with false
    by (symmetry; apply N.ltb_ge; lia).
  replace (240 + c / 262144 <? 224)%N with false
    by (symmetry; apply N.ltb_ge; lia).
  replace (240 + c / 262144 <? 240)%N with false
    by (symmetry; apply N.ltb_ge; lia).
  rewrite land_lead4, !land_cont by assumption. f_equal. lia.
Qed.

Lemma utf8_roundtrip (s : str) :
  forall bs, utf8_encode s = Ok bs -> utf8_decode bs = s.
Proof.
  induction s as [|c s IH]; intros bs; simpl.
  - intros H. injection H as <-. reflexivity.
  - destruct (utf8_encode_char c) as [b| |] eqn:Ec; cbn [bind];
      try discriminate.
    destruct (utf8_encode s) as [bs'| |]; cbn [bind]; try discriminate.
    intros H. injection H as <-.
    rewrite (utf8_char_roundtrip c b bs' Ec). f_equal. now apply IH.
Qed.

(** X18: what [_write_to_file] hands to [File.write] is the name
    "title.md" and bytes that decode back to the document, code point for
    code point. *)
Theorem X18_written_bytes_decode_to_document :
  forall (self : StoryAssistant) (name : str) (bytes : list N),
    _write_to_file self = Ok (name, bytes) ->
    name = main_title self ++ py ".md"
    /\ utf8_decode bytes = total_content self.
Proof.
  intros self name bytes. unfold _write_to_file.
  destruct (utf8_encode (total_content self)) as [bs| |] eqn:E; cbn [bind];
    try discriminate.
  intros H. injection H as <- <-. split; [reflexivity|].
  now apply utf8_roundtrip.
Qed.

Lemma utf8_encode_char_ok (c : char) :
  encodable c <-> exists b, utf8_encode_char c = Ok b.
Proof.
  unfold encodable, utf8_encode_char. split.
  - intros [H1 H2].
    destruct (c <? 128)%N; [eexists; reflexivity|].
    destruct (c <? 2048)%N; [eexists; reflexivity|].
    destruct (c <? 65536)%N.
    + destruct (55296 <=? c)%N eqn:Ea; [|eexists; reflexivity].
      destruct (c <? 57344)%N eqn:Eb; [|eexists; reflexivity].
      apply N.leb_le in Ea. apply N.ltb_lt in Eb. lia.
    + replace (c <? 1114112)%N with true
        by (symmetry; apply N.ltb_lt; lia).
      eexists; reflexivity.
  - intros [b H].
    destruct (c <? 128)%N eqn:E1; [apply N.ltb_lt in E1; lia|].
    destruct (c <? 2048)%N eqn:E2; [apply N.ltb_lt in E2; lia|].
    destruct (c <? 65536)%N eqn:E3.
    + apply N.ltb_lt in E3.
      destruct (55296 <=? c)%N eqn:Ea; destruct (c <? 57344)%N eqn:Eb;
        simpl in H; try discriminate;
        try apply N.leb_gt in Ea; try apply N.ltb_ge in Eb; lia.
    + apply N.ltb_ge in E3.
      destruct (c <? 1114112)%N eqn:E4; [|discriminate].
      apply N.ltb_lt in E4. lia.
Qed.

(** X19: [_write_to_file] raises exactly when the document holds a code
    point that cannot be encoded, a surrogate; on every other document it
    returns. *)
Theorem X19_write_succeeds_iff_encodable :
  forall self : StoryAssistant,
    Forall encodable (total_content self)
    <-> exists name bytes, _write_to_file self = Ok (name, bytes).
Proof.
  intros self. unfold _write_to_file.
  assert (H : forall s, Forall encodable s <-> exists bs, utf8_encode s = Ok bs).
  { induction s as [|c s IH]; simpl.
    - split; [intros _; now exists [] | constructor].
    - split.
      + intros F. inversion F as [|? ? Hc Hs]; subst.
        apply utf8_encode_char_ok in Hc. destruct Hc as [b ->].
        apply IH in Hs. destruct Hs as [bs ->]. cbn [bind].
        eexists; reflexivity.
      + intros [bs E].
        destruct (utf8_encode_char c) as [b| |] eqn:Ec; cbn [bind] in E;
          try discriminate.
        destruct (utf8_encode s) as [bs'| |] eqn:Es; cbn [bind] in E;
          try discriminate.
        constructor.
        * apply utf8_encode_char_ok. now exists b.
        * apply IH. now exists bs'. }
  rewrite H. split.
  - intros [bs ->]. cbn [bind]. eexists _, _. reflexivity.
  - intros [name [bytes E]].
    destruct (utf8_encode (total_content self)) as [bs| |]; cbn [bind] in E;
      try discriminate.
    now exists bs.
Qed.

Lemma X18_written_bytes_decode_to_document_witness :
  let self := set_main_title (py "题") (set_total_content (py "# 题 😀 é") Demo.role0) in
  exists name bytes,
    _write_to_file self = Ok (name, bytes)
    /\ List.length bytes = 13%nat
    /\ name = main_title self ++ py ".md"
    /\ utf8_decode bytes = total_content self.
Proof.
  intros self.
  destruct (_write_to_file self) as [[name bytes]| |] eqn:E;
    [|vm_compute in E; discriminate | vm_compute in E; discriminate].
  exists name, bytes. split; [reflexivity|]. split.
  - vm_compute in E. injection E as _ <-. reflexivity.
  - exact (X18_written_bytes_decode_to_document self name bytes E).
Defined.
